(** * RAG-chatbot: document indexing and chat orchestration

    A shallow embedding of [models/document_processor.py] and
    [models/chatbot.py].  The objects of the two classes are records and
    their methods are state-passing functions that return or raise.  The
    files under [data/] are part of the processor's state.  Every call into
    the FAISS vector store, which embeds through [GeminiEmbeddings], is
    appended to the processor's [calls], and every prompt handed to the
    Gemini model to the chatbot's [prompts], so that "no remote call is
    made" can be read off the state.

    Collaborators that live outside the repository are Section variables:
    [PdfReader] (pypdf), [split_text] (RecursiveCharacterTextSplitter),
    [similarity_search_with_score] (FAISS) and [generate_content] (Gemini).
    Text extraction and splitting are functions of the file contents.
    Whether the file system takes an uploaded file under the name given is
    the Section variable [writable].  The index and the metadata are written
    to fixed paths under [data/], and these writes succeed; so do
    [from_texts] and [add_texts]: [GeminiEmbeddings] turns every embedding
    failure into zero vectors instead of raising.

    Also embedded: [GeminiEmbeddings] itself, [validate_pdf] of
    [utils/helpers.py] with the upload loop of [app.py], and the user
    functions of [database/user_auth.py] and [database/user_management.py]
    over a table of rows. *)

From Stdlib Require Import ZArith Ascii String.
From stdpp Require Import base option list strings gmap.

(** ** Python values used by the code *)

(** Outcome of a Python expression that may raise. *)
Inductive py (A : Type) : Type :=
| Ok (a : A)
| Raise (e : string).
Arguments Ok {A} a.
Arguments Raise {A} e.

(** A file or directory entry on disk: absent; present but unreadable, so
    that its loader raises; readable but of another shape than the code goes
    on to use (for the metadata file, a JSON value without a ["documents"]
    member); or holding a value written by an earlier run. *)
Inductive stored (A : Type) : Type :=
| Missing
| Corrupt
| Misshapen
| Saved (a : A).
Arguments Missing {A}.
Arguments Corrupt {A}.
Arguments Misshapen {A}.
Arguments Saved {A} a.

(** *** Strings

    A [string] is read as a sequence of code points below 256. *)

(** [str.isspace] on one code point below 256. *)
Definition isspace (c : ascii) : bool :=
  let n := nat_of_ascii c in
  (((9 <=? n) && (n <=? 13)) || ((28 <=? n) && (n <=? 32))
   || (n =? 133) || (n =? 160))%nat.

(** [not s.strip()]: stripping leaves nothing exactly when every character
    is white space. *)
Fixpoint strip_is_empty (s : string) : bool :=
  match s with
  | EmptyString => true
  | String c s' => isspace c && strip_is_empty s'
  end.

Definition lower_ascii (c : ascii) : ascii :=
  let n := nat_of_ascii c in
  if (((65 <=? n) && (n <=? 90))
      || ((192 <=? n) && (n <=? 222) && negb (n =? 215)))%nat
  then ascii_of_nat (n + 32) else c.

(** [s.lower()] *)
Fixpoint lower (s : string) : string :=
  match s with
  | EmptyString => EmptyString
  | String c s' => String (lower_ascii c) (lower s')
  end.

(** [s.endswith(suffix)] *)
Definition endswith (s suffix : string) : bool :=
  let n := String.length s in
  let m := String.length suffix in
  (m <=? n)%nat && String.eqb (substring (n - m) m s) suffix.

(** [s.startswith(prefix)] *)
Definition startswith (s prefix : string) : bool :=
  let m := String.length prefix in
  String.eqb (substring 0 m s) prefix.

(** [os.path.join(a, b)] of [posixpath]. *)
Definition os_path_join (a b : string) : string :=
  if startswith b "/" then b
  else if String.eqb a "" || endswith a "/" then a +:+ b
  else a +:+ "/" +:+ b.

(** [if not s] for a string argument that may be [None]. *)
Definition falsy (s : option string) : bool :=
  match s with
  | None => true
  | Some x => String.eqb x ""
  end.

(** [sep.join(parts)] *)
Fixpoint join (sep : string) (parts : list string) : string :=
  match parts with
  | [] => ""
  | [x] => x
  | x :: rest => x +:+ sep +:+ join sep rest
  end.

(** *** Dictionaries

    A [dict] keeps insertion order, so it is a list of items; Python keeps
    the keys distinct, which is the predicate [dict_wf]. *)

Definition dict (V : Type) : Type := list (string * V).

Definition keys {V} (d : dict V) : list string := d.*1.

Definition dict_wf {V} (d : dict V) : Prop := NoDup (keys d).

(** [d.get(k)] *)
Fixpoint dict_get {V} (k : string) (d : dict V) : option V :=
  match d with
  | [] => None
  | (k', v) :: d' => if String.eqb k' k then Some v else dict_get k d'
  end.

(** [d[k] = v]: overwrite in place when the key exists, append otherwise. *)
Fixpoint dict_set {V} (k : string) (v : V) (d : dict V) : dict V :=
  match d with
  | [] => [(k, v)]
  | (k', v') :: d' =>
      if String.eqb k' k then (k', v) :: d' else (k', v') :: dict_set k v d'
  end.

(** [del d[k]] for a key that is present. *)
Fixpoint dict_del {V} (k : string) (d : dict V) : dict V :=
  match d with
  | [] => []
  | (k', v') :: d' =>
      if String.eqb k' k then d' else (k', v') :: dict_del k d'
  end.

(** ** Data model *)

(** A langchain [Document]: the chunk text and its metadata dict. *)
Record Document : Type := mkDocument {
  page_content : string;
  doc_metadata : dict string
}.

(** An entry of [metadata["documents"]]. *)
Record DocInfo : Type := mkDocInfo {
  filename : string;
  uploaded_at : string;
  chunk_count : nat;
  file_path : string
}.

(** [doc_info["chunk_count"] = n] *)
Definition set_chunk_count (n : nat) (i : DocInfo) : DocInfo :=
  {| filename := filename i; uploaded_at := uploaded_at i;
     chunk_count := n; file_path := file_path i |}.

(** Calls into the vector index, which embeds through the embedding gateway
    on [from_texts], [add_texts] and the similarity search. *)
Inductive call : Type :=
| FAISS_load_local
| FAISS_from_texts (texts : list string)
| FAISS_add_texts (texts : list string)
| FAISS_save_local
| FAISS_similarity_search_with_score (query : string) (k : Z).

(** The [DocumentProcessor] object together with the files it owns:
    [pdf_dir] maps a file name to the bytes stored under [data/pdfs],
    [vector_dir] and [metadata_file] are the persisted index and metadata,
    [metadata] is [self.metadata["documents"]], [vector_store] lists the
    entries of [self.vector_store.docstore._dict] in insertion order. *)
Record DocumentProcessor : Type := mkDocumentProcessor {
  pdf_dir : gmap string (list Byte.byte);
  vector_dir : stored (list Document);
  metadata_file : stored (dict DocInfo);
  metadata : dict DocInfo;
  vector_store : list Document;
  calls : list call
}.

(** A chat transcript entry. *)
Record Message : Type := mkMessage {
  role : string;
  content : string
}.

(** ** State and exceptions *)

(** A method body: it reads and writes the object and returns or raises. *)
Definition M (S A : Type) : Type := S → py A * S.

Definition ret {S A} (a : A) : M S A := λ s, (Ok a, s).

Definition raise {S A} (e : string) : M S A := λ s, (Raise e, s).

Definition bind {S A B} (m : M S A) (f : A → M S B) : M S B :=
  λ s, match m s with
       | (Ok a, s') => f a s'
       | (Raise e, s') => (Raise e, s')
       end.

Definition gets {S A} (f : S → A) : M S A := λ s, (Ok (f s), s).

Definition modify {S} (f : S → S) : M S unit := λ s, (Ok tt, f s).

(** Result of a collaborator call. *)
Definition lift {S A} (r : py A) : M S A := λ s, (r, s).

(** [try: body except Exception: handler]; side effects of [body] up to the
    raise are kept. *)
Definition try_except {S A} (body : M S A) (handler : string → M S A) : M S A :=
  λ s, match body s with
       | (Ok a, s') => (Ok a, s')
       | (Raise e, s') => handler e s'
       end.

(** [for x in xs: body x] *)
Fixpoint for_each {S A} (xs : list A) (body : A → M S unit) : M S unit :=
  match xs with
  | [] => ret tt
  | x :: xs' => bind (body x) (λ _, for_each xs' body)
  end.

Notation "'let*' x ':=' m 'in' k" := (bind m (λ x, k))
  (at level 10, x binder, m at level 100, k at level 200, only parsing).

(** Field updates of the processor object. *)
Definition set_pdf_dir (f : gmap string (list Byte.byte)) (s : DocumentProcessor) :=
  mkDocumentProcessor f (vector_dir s) (metadata_file s) (metadata s)
    (vector_store s) (calls s).
Definition set_vector_dir (v : stored (list Document)) (s : DocumentProcessor) :=
  mkDocumentProcessor (pdf_dir s) v (metadata_file s) (metadata s)
    (vector_store s) (calls s).
Definition set_metadata_file (m : stored (dict DocInfo)) (s : DocumentProcessor) :=
  mkDocumentProcessor (pdf_dir s) (vector_dir s) m (metadata s)
    (vector_store s) (calls s).
Definition set_metadata (m : dict DocInfo) (s : DocumentProcessor) :=
  mkDocumentProcessor (pdf_dir s) (vector_dir s) (metadata_file s) m
    (vector_store s) (calls s).
Definition set_vector_store (v : list Document) (s : DocumentProcessor) :=
  mkDocumentProcessor (pdf_dir s) (vector_dir s) (metadata_file s) (metadata s)
    v (calls s).
Definition log_call (c : call) (s : DocumentProcessor) :=
  mkDocumentProcessor (pdf_dir s) (vector_dir s) (metadata_file s) (metadata s)
    (vector_store s) (calls s ++ [c]).

(** ** The vector store wrapper (langchain FAISS) *)

(** The reserved entry every store is created with. *)
Definition placeholder_metadata : dict string :=
  [("source", "placeholder"); ("doc_id", "placeholder")].

Definition placeholder : Document :=
  mkDocument "placeholder content" placeholder_metadata.

(** One [Document] per text, paired with its metadata dict. *)
Definition documents (texts : list string) (metadatas : list (dict string))
  : list Document :=
  zip_with mkDocument texts metadatas.

(** [FAISS.from_texts(texts, embeddings, metadatas=metadatas)] *)
Definition from_texts (texts : list string) (metadatas : list (dict string))
  : M DocumentProcessor (list Document) :=
  let* _ := modify (log_call (FAISS_from_texts texts)) in
  ret (documents texts metadatas).

(** [self.vector_store.add_texts(texts, metadatas)] *)
Definition add_texts (texts : list string) (metadatas : list (dict string))
  : M DocumentProcessor unit :=
  let* _ := modify (log_call (FAISS_add_texts texts)) in
  modify (λ s, set_vector_store (vector_store s ++ documents texts metadatas) s).

(** [self.vector_store.save_local(self.vector_dir)] *)
Definition save_local : M DocumentProcessor unit :=
  let* _ := modify (log_call FAISS_save_local) in
  modify (λ s, set_vector_dir (Saved (vector_store s)) s).

(** [os.path.exists(os.path.join(self.pdf_dir, filename))] *)
Definition path_exists (name : string) (s : DocumentProcessor) : bool :=
  match pdf_dir s !! name with Some _ => true | None => false end.

(** The loop of [process_pdf] and [_rebuild_vector_store] that concatenates
    the non-empty page texts. *)
Definition raw_text_of (pages : list (option string)) : string :=
  fold_left
    (λ raw_text text,
       match text with
       | Some t => if String.eqb t "" then raw_text else raw_text +:+ t
       | None => raw_text
       end)
    pages "".

(** [doc.metadata.get('doc_id') != 'placeholder'] *)
Definition not_placeholder (doc : Document) : bool :=
  match dict_get "doc_id" (doc_metadata doc) with
  | Some v => negb (String.eqb v "placeholder")
  | None => true
  end.

(** [doc.metadata.get(key, "Unknown")] *)
Definition metadata_get_or_unknown (key : string) (doc : Document) : string :=
  match dict_get key (doc_metadata doc) with
  | Some v => v
  | None => "Unknown"
  end.

(** ** DocumentProcessor *)

Section DocumentProcessor.

(** Relevance scores are floats produced by the index; nothing in the
    repository inspects them. *)
Context {Score : Type}.

(** [PdfReader(path).pages] with [extract_text()] of every page, applied to
    the bytes of the file; [Raise] when pypdf raises. *)
Variable PdfReader : list Byte.byte → py (list (option string)).

(** [RecursiveCharacterTextSplitter(chunk_size=1000, chunk_overlap=100,
    length_function=len).split_text] *)
Variable split_text : string → list string.

(** Whether [open(os.path.join(self.pdf_dir, name), "wb")] succeeds: a name
    that leads into a directory that does not exist, for one, is refused. *)
Variable writable : string → bool.

(** [vector_store.similarity_search_with_score(query, k=k)] on a store with
    the given entries. *)
Variable similarity_search_with_score :
  list Document → string → Z → py (list (Document * Score)).

(** [with open(pdf_path, "wb") as f: f.write(pdf_file.read())] *)
Definition write_pdf (name : string) (pdf_file : list Byte.byte)
  : M DocumentProcessor unit :=
  if writable name
  then modify (λ s, set_pdf_dir (<[name := pdf_file]> (pdf_dir s)) s)
  else raise "OSError".

(** [PdfReader(pdf_path)] followed by the page loop. *)
Definition read_raw_text (name : string) : M DocumentProcessor string :=
  let* file := gets (λ s, pdf_dir s !! name) in
  match file with
  | None => raise "FileNotFoundError"
  | Some bytes =>
      let* pages := lift (PdfReader bytes) in
      ret (raw_text_of pages)
  end.

(** [_load_metadata()]: the loaded value, given by its ["documents"] member,
    or [None] when [json.load] returns a value without one. *)
Definition _load_metadata : M DocumentProcessor (option (dict DocInfo)) :=
  let* file := gets metadata_file in
  match file with
  | Saved m => ret (Some m)
  | Misshapen => ret None
  | Corrupt => ret (Some [])
  | Missing => ret (Some [])
  end.

Definition _save_metadata : M DocumentProcessor unit :=
  modify (λ s, set_metadata_file (Saved (metadata s)) s).

Definition _load_or_create_vector_store : M DocumentProcessor (list Document) :=
  let* dir := gets vector_dir in
  match dir with
  | Saved v =>
      let* _ := modify (log_call FAISS_load_local) in
      ret v
  | Corrupt | Misshapen =>
      let* _ := modify (log_call FAISS_load_local) in
      from_texts ["placeholder content"] [placeholder_metadata]
  | Missing =>
      from_texts ["placeholder content"] [placeholder_metadata]
  end.

(** Body of the [for doc_id, doc_info in ...items()] loop of
    [_rebuild_vector_store]; [ret tt] on the early paths is [continue]. *)
Definition _rebuild_vector_store_body (item : string * DocInfo)
  : M DocumentProcessor unit :=
  let '(doc_id, doc_info) := item in
  let filename := filename doc_info in
  let* present := gets (path_exists filename) in
  if negb present then ret tt
  else
    try_except
      (let* raw_text := read_raw_text filename in
       if strip_is_empty raw_text then ret tt
       else
         let chunks := split_text raw_text in
         let metadatas :=
           map (λ _, [("source", filename); ("doc_id", doc_id)]) chunks in
         let* _ := add_texts chunks metadatas in
         let* md := gets metadata in
         match dict_get doc_id md with
         | None => raise "KeyError"
         | Some info =>
             modify (set_metadata
               (dict_set doc_id (set_chunk_count (length chunks) info) md))
         end)
      (λ _, ret tt).

Definition _rebuild_vector_store : M DocumentProcessor unit :=
  let* fresh := from_texts ["placeholder content"] [placeholder_metadata] in
  let* _ := modify (set_vector_store fresh) in
  let* items := gets metadata in
  let* _ := for_each items _rebuild_vector_store_body in
  let* _ := save_local in
  _save_metadata.

Definition _ensure_vector_store_populated : M DocumentProcessor unit :=
  let* s := gets id in
  let entries := length (vector_store s) in
  let need_rebuild := false in
  let need_rebuild :=
    if (Nat.eqb (length (metadata s)) 0 && negb (Nat.eqb (size (pdf_dir s)) 0))
       || (entries <=? 1)%nat
    then true else need_rebuild in
  let doc_count := length (metadata s) in
  let need_rebuild :=
    if (0 <? doc_count)%nat && (entries <? doc_count + 1)%nat
    then true else need_rebuild in
  if need_rebuild then _rebuild_vector_store else ret tt.

(** [DocumentProcessor(data_dir)] on a data directory with the given
    contents.  When the loaded metadata has no ["documents"] member, the
    first [self.metadata["documents"]], in
    [_ensure_vector_store_populated], raises. *)
Definition DocumentProcessor__init__
    (pdfs : gmap string (list Byte.byte))
    (index : stored (list Document))
    (json : stored (dict DocInfo)) : py unit * DocumentProcessor :=
  (let* loaded := _load_metadata in
   let* _ := modify (set_metadata (default [] loaded)) in
   let* vs := _load_or_create_vector_store in
   let* _ := modify (set_vector_store vs) in
   match loaded with
   | Some _ => _ensure_vector_store_populated
   | None => raise "KeyError"
   end)
    (mkDocumentProcessor pdfs index json [] [] []).

(** [process_pdf(pdf_file, filename)]; [fresh_id] is the value of
    [str(uuid.uuid4())] and [now] that of [datetime.now().isoformat()]. *)
Definition process_pdf (pdf_file : list Byte.byte) (filename : option string)
    (fresh_id now : string) : M DocumentProcessor bool :=
  try_except
    (let doc_id := fresh_id in
     let filename :=
       if falsy filename then doc_id +:+ ".pdf"
       else
         let f := default "" filename in
         if negb (endswith (lower f) ".pdf") then f +:+ ".pdf" else f in
     let pdf_path := os_path_join (os_path_join "data" "pdfs") filename in
     let* _ := write_pdf filename pdf_file in
     let* raw_text := read_raw_text filename in
     if strip_is_empty raw_text then ret false
     else
       let chunks := split_text raw_text in
       let metadatas :=
         map (λ _, [("source", filename); ("doc_id", doc_id)]) chunks in
       let* _ := add_texts chunks metadatas in
       let* _ := save_local in
       let* _ :=
         modify (λ s,
           set_metadata
             (dict_set doc_id
                (mkDocInfo filename now (length chunks) pdf_path)
                (metadata s)) s) in
       let* _ := _save_metadata in
       ret true)
    (λ _, ret false).

Definition search_documents (query : string) (k : Z)
  : M DocumentProcessor (list (Document * Score)) :=
  try_except
    (let* md := gets metadata in
     if Nat.eqb (length md) 0 then ret []
     else
       let* store := gets vector_store in
       let* _ := modify (log_call (FAISS_similarity_search_with_score query k)) in
       let* results := lift (similarity_search_with_score store query k) in
       let filtered_results :=
         List.filter (λ '(doc, score), not_placeholder doc) results in
       ret filtered_results)
    (λ _, ret []).

Definition get_all_documents : M DocumentProcessor (dict DocInfo) :=
  gets metadata.

Definition delete_document (doc_id : string) : M DocumentProcessor bool :=
  let* md := gets metadata in
  match dict_get doc_id md with
  | Some doc_info =>
      let filename := filename doc_info in
      let* present := gets (path_exists filename) in
      let* _ :=
        (if present
         then modify (λ s, set_pdf_dir (delete filename (pdf_dir s)) s)
         else ret tt) in
      let* _ := modify (λ s, set_metadata (dict_del doc_id (metadata s)) s) in
      let* _ := _save_metadata in
      let* _ := _rebuild_vector_store in
      ret true
  | None => ret false
  end.

End DocumentProcessor.

(** ** ComplianceChatbot *)

(** The line feed character. *)
Definition LF : string := String (ascii_of_nat 10) "".

Definition system_instructions : string := "
        You are a compliance assistant for a financial institution. Your role is to provide accurate 
        information based on the company's compliance documents. Answer the user's query using ONLY the 
        information provided in the context. If the answer is not in the provided context, say that you 
        don't have enough information from the compliance documents to answer. Do not make up answers.
        Always cite the specific document source you used for your answer.
        ".

(** The f-string of [generate_response]. *)
Definition prompt_template (context_text query : string) : string :=
  LF +:+ "        " +:+ system_instructions +:+ LF +:+
  "        " +:+ LF +:+
  "        Context information from compliance documents:" +:+ LF +:+
  "        " +:+ context_text +:+ LF +:+
  "        " +:+ LF +:+
  "        User question: " +:+ query +:+ LF +:+
  "        " +:+ LF +:+
  "        Please provide a response based only on the context information provided." +:+ LF +:+
  "        ".

(** Returned when the search finds nothing. *)
Definition no_information_message : string :=
  "I'm sorry, I couldn't find any relevant information in the compliance documents. " +:+
  "Please consider uploading relevant PDFs if they're not already in our system.".

(** Returned when the model call raises. *)
Definition error_message : string :=
  "I'm sorry, I encountered an error while generating a response. Please try again later.".

(** The object returned by [generate_content]; reading [.text] may raise. *)
Record GenerateContentResponse : Type := mkResponse {
  text : py string
}.

(** [lst[-n:]] *)
Definition last_n {A} (n : nat) (l : list A) : list A :=
  drop (length l - n) l.

Section ComplianceChatbot.

Context {Score : Type}.
Variable similarity_search_with_score :
  list Document → string → Z → py (list (Document * Score)).

(** [genai.GenerativeModel(model_name).generate_content(prompt)] *)
Variable generate_content : string → string → py GenerateContentResponse.

(** An element of the [sources] list. *)
Record Source : Type := mkSource {
  source : string;
  score : Score;
  doc_id : string
}.

(** The chatbot object; [prompts] records, oldest first, every prompt
    handed to [generate_content]. *)
Record ComplianceChatbot : Type := mkComplianceChatbot {
  document_processor : DocumentProcessor;
  model_name : string;
  chat_history : list Message;
  prompts : list string
}.

Definition ComplianceChatbot__init__ (dp : DocumentProcessor) : ComplianceChatbot :=
  mkComplianceChatbot dp "gemini-1.5-pro" [] [].

Definition set_chat_history (h : list Message) (c : ComplianceChatbot) :=
  mkComplianceChatbot (document_processor c) (model_name c) h (prompts c).

Definition log_prompt (p : string) (c : ComplianceChatbot) :=
  mkComplianceChatbot (document_processor c) (model_name c) (chat_history c)
    (prompts c ++ [p]).

(** A method call on [self.document_processor]. *)
Definition on_document_processor {A} (m : M DocumentProcessor A)
  : M ComplianceChatbot A :=
  λ c, let '(r, dp) := m (document_processor c) in
       (r, mkComplianceChatbot dp (model_name c) (chat_history c) (prompts c)).

Definition generate_response (query : string) (k : Z)
  : M ComplianceChatbot (string * list Source) :=
  let* search_results :=
    on_document_processor
      (search_documents similarity_search_with_score query k) in
  match search_results with
  | [] => ret (no_information_message, [])
  | _ =>
      let contexts := map (λ '(doc, score), page_content doc) search_results in
      let sources :=
        map (λ '(doc, score),
               mkSource (metadata_get_or_unknown "source" doc) score
                 (metadata_get_or_unknown "doc_id" doc))
            search_results in
      let context_text := join (LF +:+ LF) contexts in
      let full_prompt := prompt_template context_text query in
      try_except
        (let* name := gets model_name in
         let* _ := modify (log_prompt full_prompt) in
         let* response := lift (generate_content name full_prompt) in
         let* response_text := lift (text response) in
         let* _ :=
           modify (λ c, set_chat_history
                          (chat_history c ++ [mkMessage "user" query]) c) in
         let* _ :=
           modify (λ c, set_chat_history
                          (chat_history c ++ [mkMessage "assistant" response_text]) c) in
         let* _ :=
           modify (λ c, if (20 <? length (chat_history c))%nat
                        then set_chat_history (last_n 20 (chat_history c)) c
                        else c) in
         ret (response_text, sources))
        (λ _, ret (error_message, []))
  end.

Definition reset_chat_history : M ComplianceChatbot unit :=
  modify (set_chat_history []).

End ComplianceChatbot.

(** ** GeminiEmbeddings *)

Section GeminiEmbeddings.

(** Components of an embedding are floats; [zero] is [0.0]. *)
Context {Float : Type}.
Variable zero : Float.

(** [genai.embed_content(model=..., content=..., task_type=...)['embedding']];
    [Raise] when the call or the lookup of the key raises. *)
Variable embed_content : string → string → string → py (list Float).

(** [embed_documents(texts)] of an object with the given [model_name]; the
    state of the loop is the local list [embeddings]. *)
Definition embed_documents (model_name : string) (texts : list string)
  : py (list (list Float)) :=
  (try_except
     (let* _ :=
        for_each texts (λ text,
          let* embedding :=
            lift (embed_content model_name text "retrieval_document") in
          modify (λ embeddings, embeddings ++ [embedding])) in
      gets id)
     (λ _, ret (replicate (length texts) (replicate 768 zero))) []).1.

(** [embed_query(text)] *)
Definition embed_query (model_name : string) (text : string)
  : py (list Float) :=
  (try_except
     (let* embedding :=
        lift (embed_content model_name text "retrieval_query") in
      ret embedding)
     (λ _, ret (replicate 768 zero)) tt).1.

End GeminiEmbeddings.

(** ** Upload page

    [utils/helpers.py] and the upload form of [app.py]. *)

(** A file handed over by the upload widget. *)
Module UploadedFile.
Record t : Type := mk {
  name : string;
  size : Z;
  data : list Byte.byte
}.
End UploadedFile.

(** [validate_pdf(file)] *)
Definition validate_pdf (file : option UploadedFile.t) : bool :=
  match file with
  | None => false
  | Some file =>
      if negb (endswith (lower (UploadedFile.name file)) ".pdf") then false
      else if (20 * 1024 * 1024 <? UploadedFile.size file)%Z then false
      else true
  end.

Section UploadForm.

Variable PdfReader : list Byte.byte → py (list (option string)).
Variable split_text : string → list string.
Variable writable : string → bool.

(** The loop of [render_document_management] over the uploaded files, with
    the lists [successes] and [failures] it fills; every file comes with the
    id and the time [process_pdf] draws for it.  Display and activity
    logging, which do not touch the processor or the two lists, are left
    out. *)
Fixpoint upload_documents
    (uploaded_files : list (UploadedFile.t * (string * string)))
    (successes failures : list string)
  : M DocumentProcessor (list string * list string) :=
  match uploaded_files with
  | [] => ret (successes, failures)
  | (uploaded_file, (fresh_id, now)) :: rest =>
      let filename := UploadedFile.name uploaded_file in
      if validate_pdf (Some uploaded_file) then
        let* success :=
          process_pdf PdfReader split_text writable
            (UploadedFile.data uploaded_file) (Some filename) fresh_id now in
        if success
        then upload_documents rest (successes ++ [filename]) failures
        else upload_documents rest successes (failures ++ [filename])
      else upload_documents rest successes (failures ++ [filename])
  end.

End UploadForm.

(** ** Users database

    [database/user_auth.py] and [database/user_management.py].  The [users]
    table is the list of its rows in insertion order, with the next value of
    the [SERIAL] sequence beside it.  A statement on an open connection
    fails for the reasons the driver and the table definition give: a string
    parameter that holds a NUL character, which psycopg2 refuses to adapt; a
    value that does not fit its [VARCHAR] column; an id or a user name that
    is already there. *)

Module UserRow.
Record t : Type := mk {
  id : Z;
  username : string;
  password_hash : string;
  salt : string;
  is_admin : bool;
  created_at : string
}.
End UserRow.

(** The dict [authenticate_user] returns for a login. *)
Module UserData.
Record t : Type := mk {
  id : Z;
  username : string;
  is_admin : bool
}.
End UserData.

Record Database : Type := mkDatabase {
  reachable : bool;
  users : list UserRow.t;
  next_id : Z
}.

Definition set_users (rows : list UserRow.t) (db : Database) : Database :=
  mkDatabase (reachable db) rows (next_id db).

(** [get_db_connection()]: a connection, or [None] when connecting fails. *)
Definition get_db_connection : M Database bool := gets reachable.

(** Whether the string holds the character of code 0. *)
Fixpoint has_nul (s : string) : bool :=
  match s with
  | EmptyString => false
  | String c s' => Ascii.eqb c Ascii.zero || has_nul s'
  end.

Definition nul_message : string :=
  "A string literal cannot contain NUL (0x00) characters.".

(** Adaptation of a [str] parameter by [cursor.execute]: psycopg2 raises on
    a NUL character, before anything reaches the server. *)
Definition adapt (v : string) : M Database unit :=
  if has_nul v then raise nul_message else ret tt.

Definition all_spaces (s : string) : bool :=
  forallb (Ascii.eqb " ") (list_ascii_of_string s).

(** Assignment to a [VARCHAR(n)] column: a longer value is refused, unless
    the characters in excess are all spaces, which are cut off. *)
Definition varchar (n : nat) (v : string) : option string :=
  let len := String.length v in
  if (len <=? n)%nat then Some v
  else if all_spaces (substring n (len - n) v) then Some (substring 0 n v)
  else None.

(** [SELECT ... FROM users WHERE username = %s] followed by [fetchone()]. *)
Definition select_by_username (name : string) : M Database (option UserRow.t) :=
  let* _ := adapt name in
  gets (λ db, List.find (λ u, String.eqb (UserRow.username u) name) (users db)).

(** [SELECT ... FROM users WHERE id = %s] followed by [fetchone()]. *)
Definition select_by_id (user_id : Z) : M Database (option UserRow.t) :=
  gets (λ db, List.find (λ u, Z.eqb (UserRow.id u) user_id) (users db)).

(** [SELECT COUNT( * ) FROM users WHERE is_admin = TRUE] *)
Definition count_admins : M Database nat :=
  gets (λ db, length (List.filter UserRow.is_admin (users db))).

(** [INSERT INTO users (username, password_hash, salt, is_admin) VALUES ...]
    and the commit; [now] is [CURRENT_TIMESTAMP].  The values are fitted to
    their columns when the statement is planned; the row then takes the next
    value of the sequence, which stays taken when the primary key or the
    unique user name refuses the row.  The hash and the salt are passed as
    [hash_password] makes them, a hexadecimal digest and the text of a UUID,
    which hold no NUL character. *)
Definition insert_user (name password_hash salt : string) (is_admin : bool)
    (now : string) : M Database unit :=
  let* _ := adapt name in
  λ db,
    match varchar 50 name, varchar 128 password_hash, varchar 36 salt with
    | Some name, Some password_hash, Some salt =>
        let id := next_id db in
        let taken := mkDatabase (reachable db) (users db) (id + 1) in
        if existsb (λ u, Z.eqb (UserRow.id u) id) (users db)
        then (Raise "duplicate key value violates unique constraint", taken)
        else if existsb (λ u, String.eqb (UserRow.username u) name) (users db)
        then (Raise "duplicate key value violates unique constraint", taken)
        else
          (Ok tt,
           mkDatabase (reachable db)
             (users db
              ++ [UserRow.mk id name password_hash salt is_admin now])
             (id + 1))
    | _, _, _ => (Raise "value too long for type character varying", db)
    end.

Section UserAuth.

(** [hashlib.sha256(text.encode()).hexdigest()] *)
Variable sha256_hexdigest : string → string.

(** [hash_password(password, salt)]; [fresh_uuid] is [str(uuid.uuid4())]. *)
Definition hash_password (password : string) (salt : option string)
    (fresh_uuid : string) : string * string :=
  let salt := match salt with None => fresh_uuid | Some salt => salt end in
  let password_hash := sha256_hexdigest (password +:+ salt) in
  (password_hash, salt).

Definition register_user (username password : string) (is_admin : bool)
    (fresh_uuid now : string) : M Database (bool * string) :=
  let* conn := get_db_connection in
  if negb conn then ret (false, "Database connection error")
  else
    try_except
      (let* existing := select_by_username username in
       match existing with
       | Some _ => ret (false, "Username already exists")
       | None =>
           let '(password_hash, salt) :=
             hash_password password None fresh_uuid in
           let* _ := insert_user username password_hash salt is_admin now in
           ret (true, "User registered successfully")
       end)
      (λ e, ret (false, "Error: " +:+ e)).

Definition authenticate_user (username password : string)
  : M Database (bool * option UserData.t * string) :=
  let* conn := get_db_connection in
  if negb conn then ret (false, None, "Database connection error")
  else
    try_except
      (let* user := select_by_username username in
       match user with
       | None => ret (false, None, "Invalid username or password")
       | Some user =>
           let user_id := UserRow.id user in
           let stored_hash := UserRow.password_hash user in
           let salt := UserRow.salt user in
           let is_admin := UserRow.is_admin user in
           let '(input_hash, _) := hash_password password (Some salt) "" in
           if String.eqb input_hash stored_hash
           then ret (true, Some (UserData.mk user_id username is_admin),
                     "Login successful")
           else ret (false, None, "Invalid username or password")
       end)
      (λ e, ret (false, None, "Error: " +:+ e)).

Definition create_initial_admin (fresh_uuid now : string) : M Database unit :=
  let* conn := get_db_connection in
  if conn then
    try_except
      (let* count := gets (λ db, length (users db)) in
       if Nat.eqb count 0
       then
         let* _ := register_user "admin" "admin" true fresh_uuid now in
         ret tt
       else ret tt)
      (λ _, ret tt)
  else ret tt.

End UserAuth.

Definition delete_user (user_id : Z) : M Database (bool * string) :=
  let* conn := get_db_connection in
  if conn then
    try_except
      (let* admin_count := count_admins in
       let* user := select_by_id user_id in
       match user with
       | None => ret (false, "User not found")
       | Some user =>
           let is_admin := UserRow.is_admin user in
           if is_admin && (admin_count <=? 1)%nat
           then ret (false, "Cannot delete the last admin user")
           else
             let* _ :=
               modify (λ db,
                 set_users
                   (List.filter (λ u, negb (Z.eqb (UserRow.id u) user_id))
                      (users db)) db) in
             ret (true, "User deleted successfully")
       end)
      (λ e, ret (false, "Error deleting user: " +:+ e))
  else ret (false, "Database connection error").

Definition update_user_admin_status (user_id : Z) (is_admin : bool)
  : M Database (bool * string) :=
  let* conn := get_db_connection in
  if conn then
    try_except
      (let* refused :=
         (if negb is_admin then
            let* admin_count := count_admins in
            let* user := select_by_id user_id in
            match user with
            | None => ret (Some (false, "User not found"))
            | Some user =>
                let current_is_admin := UserRow.is_admin user in
                if current_is_admin && (admin_count <=? 1)%nat
                then ret (Some (false,
                  "Cannot remove admin privileges from the last admin user"))
                else ret None
            end
          else ret None) in
       match refused with
       | Some answer => ret answer
       | None =>
           let* _ :=
             modify (λ db,
               set_users
                 (map (λ u,
                         if Z.eqb (UserRow.id u) user_id
                         then UserRow.mk (UserRow.id u) (UserRow.username u)
                                (UserRow.password_hash u) (UserRow.salt u)
                                is_admin (UserRow.created_at u)
                         else u)
                    (users db)) db) in
           let status := if is_admin then "granted" else "revoked" in
           ret (true, "Admin privileges " +:+ status +:+ " successfully")
       end)
      (λ e, ret (false, "Error updating user: " +:+ e))
  else ret (false, "Database connection error").

(** ** Outcomes of the methods

    The vocabulary in which the properties below are stated. *)

(** [m] never raises. *)
Definition returns {S A} (m : M S A) : Prop :=
  ∀ s, ∃ a, (m s).1 = Ok a.

Section Outcomes.

Variable PdfReader : list Byte.byte → py (list (option string)).
Variable split_text : string → list string.

Implicit Types (fs : gmap string (list Byte.byte)).
Implicit Types (item : string * DocInfo) (md : dict DocInfo).

(** The chunks a rebuild adds for the file [name]: none when the file is
    missing, unreadable or blank. *)
Definition rebuilt_chunks fs (name : string) : option (list string) :=
  match fs !! name with
  | None => None
  | Some bytes =>
      match PdfReader bytes with
      | Raise _ => None
      | Ok pages =>
          if strip_is_empty (raw_text_of pages) then None
          else Some (split_text (raw_text_of pages))
      end
  end.

Definition rebuilt_info fs item : string * DocInfo :=
  match rebuilt_chunks fs (filename item.2) with
  | Some chunks => (item.1, set_chunk_count (length chunks) item.2)
  | None => item
  end.

Definition rebuilt_entries fs item : list Document :=
  match rebuilt_chunks fs (filename item.2) with
  | Some chunks =>
      documents chunks
        (map (λ _, [("source", filename item.2); ("doc_id", item.1)]) chunks)
  | None => []
  end.

Definition rebuilt_calls fs item : list call :=
  match rebuilt_chunks fs (filename item.2) with
  | Some chunks => [FAISS_add_texts chunks]
  | None => []
  end.

(** Sum of the chunk counts of the documents whose file is present,
    readable and not blank. *)
Definition indexed_chunk_count (fs : gmap string (list Byte.byte))
    (md : dict DocInfo) : nat :=
  sum_list
    (map (λ item,
            match rebuilt_chunks fs (filename item.2) with
            | Some _ => chunk_count item.2
            | None => 0
            end) md).

End Outcomes.

(** Entries of the index other than the placeholder. *)
Definition populated_count (vs : list Document) : nat := length vs - 1.

(** Sum of the chunk counts recorded in the metadata. *)
Definition aggregate_chunk_count (md : dict DocInfo) : nat :=
  sum_list (map (λ item, chunk_count item.2) md).

(** The invariant of the data model on one processor. *)
Definition counts_agree (s : DocumentProcessor) : Prop :=
  populated_count (vector_store s) = aggregate_chunk_count (metadata s).

(** The name under which [process_pdf] stores an upload. *)
Definition stored_name (filename : option string) (fresh_id : string) : string :=
  if falsy filename then fresh_id +:+ ".pdf"
  else
    let f := default "" filename in
    if negb (endswith (lower f) ".pdf") then f +:+ ".pdf" else f.

(** What [__init__] holds before [_ensure_vector_store_populated] runs. *)
Definition loaded_metadata (json : stored (dict DocInfo)) : dict DocInfo :=
  match json with Saved m => m | _ => [] end.

Definition loaded_store (index : stored (list Document)) : list Document :=
  match index with Saved v => v | _ => [placeholder] end.

Definition loaded_calls (index : stored (list Document)) : list call :=
  match index with
  | Saved _ => [FAISS_load_local]
  | Corrupt | Misshapen =>
      [FAISS_load_local; FAISS_from_texts ["placeholder content"]]
  | Missing => [FAISS_from_texts ["placeholder content"]]
  end.

Definition loaded (pdfs : gmap string (list Byte.byte))
    (index : stored (list Document)) (json : stored (dict DocInfo))
  : DocumentProcessor :=
  mkDocumentProcessor pdfs index json (loaded_metadata json)
    (loaded_store index) (loaded_calls index).

(** The test [_ensure_vector_store_populated] applies: it looks at the
    number of entries and the number of documents, never at chunk counts. *)
Definition startup_rebuilds (pdfs : gmap string (list Byte.byte))
    (index : stored (list Document)) (json : stored (dict DocInfo)) : bool :=
  let docs := length (loaded_metadata json) in
  let entries := length (loaded_store index) in
  (Nat.eqb docs 0 && negb (Nat.eqb (size pdfs) 0))
  || (entries <=? 1)%nat
  || ((0 <? docs)%nat && (entries <? docs + 1)%nat).

(** The processor once [delete_document] has removed the file and the
    metadata entry and has saved the metadata, before the rebuild. *)
Definition removed (doc_id : string) (info : DocInfo) (s : DocumentProcessor)
  : DocumentProcessor :=
  mkDocumentProcessor (delete (filename info) (pdf_dir s)) (vector_dir s)
    (Saved (dict_del doc_id (metadata s))) (dict_del doc_id (metadata s))
    (vector_store s) (calls s).

(** [self.chat_history[-20:]] when the transcript has more than twenty
    entries. *)
Definition capped (h : list Message) : list Message :=
  if (20 <? length h)%nat then last_n 20 h else h.

(** The prompt built from the search results. *)
Definition prompt_of {Score} (results : list (Document * Score))
    (query : string) : string :=
  prompt_template
    (join (LF +:+ LF) (map (λ '(doc, score), page_content doc) results)) query.

(** The text of the model's answer: the call may raise, and so may reading
    [.text] on what it returned. *)
Definition response_text
    (generate_content : string → string → py GenerateContentResponse)
    (name prompt : string) : py string :=
  match generate_content name prompt with
  | Ok response => text response
  | Raise e => Raise e
  end.

(** The state [process_pdf] leaves when it succeeds with [chunks]. *)
Definition ingested (name doc_id now : string) (pdf_file : list Byte.byte)
    (chunks : list string) (s : DocumentProcessor) : DocumentProcessor :=
  let vs :=
    vector_store s
    ++ documents chunks
         (map (λ _, [("source", name); ("doc_id", doc_id)]) chunks) in
  let md :=
    dict_set doc_id
      (mkDocInfo name now (length chunks)
         (os_path_join (os_path_join "data" "pdfs") name))
      (metadata s) in
  mkDocumentProcessor (<[name := pdf_file]> (pdf_dir s)) (Saved vs) (Saved md)
    md vs (calls s ++ [FAISS_add_texts chunks; FAISS_save_local]).

(** Number of administrators in the table. *)
Definition admins (rows : list UserRow.t) : nat :=
  length (List.filter UserRow.is_admin rows).

(** The primary key: no two rows share an id. *)
Definition ids_distinct (db : Database) : Prop :=
  NoDup (map UserRow.id (users db)).

(** The row rewritten by [UPDATE users SET is_admin = %s WHERE id = %s]. *)
Definition with_admin (uid : Z) (is_admin : bool) (u : UserRow.t) : UserRow.t :=
  if Z.eqb (UserRow.id u) uid
  then UserRow.mk (UserRow.id u) (UserRow.username u) (UserRow.password_hash u)
         (UserRow.salt u) is_admin (UserRow.created_at u)
  else u.

(** ** Concrete collaborators

    Small stand-ins for pypdf, the text splitter, FAISS and Gemini, used to
    run the methods on explicit inputs. *)

Module Demo.

(** The extracted text of a file is its bytes, on a single page; an empty
    file is rejected. *)
Definition reader (bytes : list Byte.byte) : py (list (option string)) :=
  match bytes with
  | [] => Raise "PdfReadError"
  | _ => Ok [Some (string_of_list_byte bytes)]
  end.

(** Chunks of four characters. *)
Fixpoint split_fuel (fuel : nat) (s : string) : list string :=
  match fuel with
  | O => []
  | S fuel' =>
      if String.eqb s "" then []
      else substring 0 4 s
             :: split_fuel fuel' (substring 4 (String.length s - 4) s)
  end.

Definition split (s : string) : list string :=
  split_fuel (String.length s) s.

(** The first [k] entries of the store, scored by position. *)
Definition search (store : list Document) (query : string) (k : Z)
  : py (list (Document * nat)) :=
  Ok (take (Z.to_nat k) (zip store (seq 0 (length store)))).

(** A file system that takes any name without a slash. *)
Definition writable (name : string) : bool :=
  negb (existsb (Ascii.eqb "/") (list_ascii_of_string name)).

(** A model that answers every prompt. *)
Definition llm_ok (name prompt : string) : py GenerateContentResponse :=
  Ok (mkResponse (Ok "See policy.pdf.")).

(** A model whose call raises. *)
Definition llm_down (name prompt : string) : py GenerateContentResponse :=
  Raise "ServiceUnavailable".

(** A model whose response has no readable text. *)
Definition llm_blocked (name prompt : string) : py GenerateContentResponse :=
  Ok (mkResponse (Raise "ValueError")).

Definition file (s : string) : list Byte.byte := list_byte_of_string s.

Definition info (name : string) (n : nat) : DocInfo :=
  mkDocInfo name "2024-01-01T00:00:00" n ("data/pdfs/" +:+ name).

Definition chunk (t name doc : string) : Document :=
  mkDocument t [("source", name); ("doc_id", doc)].

(** Two uploaded files: [a.pdf] splits into three chunks, [b.pdf] into two. *)
Definition pdfs : gmap string (list Byte.byte) :=
  <["a.pdf" := file "aaaabbbbcc"]> (<["b.pdf" := file "ddddee"]> ∅).

Definition two_docs : dict DocInfo :=
  [("d1", info "a.pdf" 3); ("d2", info "b.pdf" 2)].

(** An index that holds the chunks of [a.pdf] only. *)
Definition partial_index : list Document :=
  [placeholder; chunk "aaaa" "a.pdf" "d1"; chunk "bbbb" "a.pdf" "d1";
   chunk "cc" "a.pdf" "d1"].

(** A processor whose index lags behind its metadata. *)
Definition lagging : DocumentProcessor :=
  mkDocumentProcessor pdfs (Saved partial_index) (Saved two_docs)
    two_docs partial_index [].

(** The PDF directory once [b.pdf] has been removed by hand. *)
Definition pdfs_without_b : gmap string (list Byte.byte) :=
  <["a.pdf" := file "aaaabbbbcc"]> ∅.

(** A processor with no documents. *)
Definition empty : DocumentProcessor :=
  mkDocumentProcessor ∅ (Saved [placeholder]) (Saved []) [] [placeholder] [].

(** The index that matches [two_docs]. *)
Definition full_index : list Document :=
  partial_index ++ [chunk "dddd" "b.pdf" "d2"; chunk "ee" "b.pdf" "d2"].

(** A processor whose index and metadata agree. *)
Definition synced : DocumentProcessor :=
  mkDocumentProcessor pdfs (Saved full_index) (Saved two_docs)
    two_docs full_index [].

(** An index whose similarity search raises. *)
Definition search_down (store : list Document) (query : string) (k : Z)
  : py (list (Document * nat)) :=
  Raise "IndexError".

(** An embedding service that rejects the empty text and embeds any other
    text as its length. *)
Definition embedder (model content task_type : string) : py (list nat) :=
  if String.eqb content "" then Raise "InvalidArgument"
  else Ok [String.length content].

(** Uploaded files: a PDF, a text file, and a PDF one byte over the limit. *)
Definition policy : UploadedFile.t :=
  UploadedFile.mk "Policy.PDF" 13 (file "hello world!!").

Definition notes : UploadedFile.t :=
  UploadedFile.mk "notes.txt" 5 (file "notes").

Definition huge : UploadedFile.t :=
  UploadedFile.mk "huge.pdf" (20 * 1024 * 1024 + 1) (file "x").

(** A stand-in for the digest. *)
Definition digest (s : string) : string := "h:" +:+ s.

Definition alice : UserRow.t :=
  UserRow.mk 1 "alice" (digest "pw1salt-a") "salt-a" true "2024-01-01".

Definition bob : UserRow.t :=
  UserRow.mk 2 "bob" (digest "pw2salt-b") "salt-b" false "2024-01-02".

(** A reachable database with one administrator and one other user. *)
Definition staff : Database := mkDatabase true [alice; bob] 3.

(** A reachable database with an empty table. *)
Definition fresh : Database := mkDatabase true [] 1.

(** What [search] finds in [lagging] with [k = 5]. *)
Definition found : list (Document * nat) :=
  [(chunk "aaaa" "a.pdf" "d1", 1); (chunk "bbbb" "a.pdf" "d1", 2);
   (chunk "cc" "a.pdf" "d1", 3)].

End Demo.

(** * Properties *)

(** ** Method bodies *)

Section Bodies.

Context {S : Type}.

Lemma returns_try_except {A} (m : M S A) h :
  (∀ e, returns (h e)) → returns (try_except m h).
Proof.
  intros Hh s. unfold try_except.
  destruct (m s) as [[a|e] s']; simpl; [eauto | apply Hh].
Qed.

Lemma returns_bind {A B} (m : M S A) (f : A → M S B) :
  returns m → (∀ a, returns (f a)) → returns (bind m f).
Proof.
  intros Hm Hf s. unfold bind.
  destruct (Hm s) as [a Ha]. destruct (m s) as [[a'|e] s']; simpl in *.
  - apply Hf.
  - discriminate.
Qed.

Lemma returns_ret {A} (a : A) : returns (ret (S:=S) a).
Proof. intros s. by exists a. Qed.

Lemma returns_gets {A} (f : S → A) : returns (gets f).
Proof. intros s. by exists (f s). Qed.

Lemma returns_modify (f : S → S) : returns (modify f).
Proof. intros s. by exists tt. Qed.

Lemma returns_for_each {A} (xs : list A) (body : A → M S unit) :
  (∀ x, returns (body x)) → returns (for_each xs body).
Proof.
  intros Hb. induction xs as [|x xs IH]; simpl.
  - apply returns_ret.
  - apply returns_bind; [apply Hb | intros _; exact IH].
Qed.

End Bodies.

(** ** Dictionaries *)

Section Dict.

Context {V : Type}.
Implicit Types (d : dict V) (k : string) (v : V).

Lemma dict_get_app_fresh k v pre rest :
  k ∉ keys pre → dict_get k (pre ++ (k, v) :: rest) = Some v.
Proof.
  induction pre as [|[k' v'] pre IH]; simpl; intros Hk.
  - by rewrite String.eqb_refl.
  - apply not_elem_of_cons in Hk as [Hne Hk].
    destruct (String.eqb_spec k' k); [congruence | by apply IH].
Qed.

Lemma dict_set_app_fresh k v v0 pre rest :
  k ∉ keys pre →
  dict_set k v (pre ++ (k, v0) :: rest) = pre ++ (k, v) :: rest.
Proof.
  induction pre as [|[k' v'] pre IH]; simpl; intros Hk.
  - by rewrite String.eqb_refl.
  - apply not_elem_of_cons in Hk as [Hne Hk].
    destruct (String.eqb_spec k' k); [congruence | by rewrite IH].
Qed.

Lemma dict_get_None k d : dict_get k d = None ↔ k ∉ keys d.
Proof.
  induction d as [|[k' v'] d IH]; simpl.
  - split; [intros _; apply not_elem_of_nil | done].
  - destruct (String.eqb_spec k' k) as [->|Hne].
    + split; [done | intros Hk; exfalso; apply Hk; left].
    + rewrite IH, not_elem_of_cons. split; [by intros ? | by intros [_ ?]].
Qed.

Lemma keys_dict_del_subseteq k d : keys (dict_del k d) ⊆ keys d.
Proof.
  intros x. induction d as [|[k' v'] d IH]; simpl; [done|].
  destruct (String.eqb k' k); simpl.
  - intros H. by right.
  - intros [->|H]%elem_of_cons; [left | right; by apply IH].
Qed.

Lemma dict_del_wf k d : dict_wf d → dict_wf (dict_del k d).
Proof.
  unfold dict_wf. induction d as [|[k' v'] d IH]; simpl; [done|].
  intros [Hk Hd]%NoDup_cons. destruct (String.eqb k' k); simpl; [done|].
  apply NoDup_cons. split; [|by apply IH].
  intros Hin. apply Hk. by apply keys_dict_del_subseteq in Hin.
Qed.

Lemma dict_get_del k d : dict_wf d → dict_get k (dict_del k d) = None.
Proof.
  unfold dict_wf. induction d as [|[k' v'] d IH]; simpl; [done|].
  intros [Hk Hd]%NoDup_cons.
  destruct (String.eqb_spec k' k) as [->|Hne]; simpl.
  - by apply dict_get_None.
  - destruct (String.eqb_spec k' k); [done | by apply IH].
Qed.

End Dict.

(** ** The rebuild loop *)

Section Rebuild.

Variable PdfReader : list Byte.byte → py (list (option string)).
Variable split_text : string → list string.

Implicit Types (fs : gmap string (list Byte.byte)) (s : DocumentProcessor).
Implicit Types (item : string * DocInfo) (md : dict DocInfo).

Local Abbreviation rebuilt_chunks := (rebuilt_chunks PdfReader split_text).
Local Abbreviation rebuilt_info := (rebuilt_info PdfReader split_text).
Local Abbreviation rebuilt_entries := (rebuilt_entries PdfReader split_text).
Local Abbreviation rebuilt_calls := (rebuilt_calls PdfReader split_text).

Lemma read_raw_text_run name s :
  read_raw_text PdfReader name s
  = (match pdf_dir s !! name with
     | None => Raise "FileNotFoundError"
     | Some bytes =>
         match PdfReader bytes with
         | Ok pages => Ok (raw_text_of pages)
         | Raise e => Raise e
         end
     end, s).
Proof.
  unfold read_raw_text, bind, gets, lift, ret, raise.
  destruct (pdf_dir s !! name) as [bytes|]; [|done].
  by destruct (PdfReader bytes).
Qed.

Lemma rebuild_body_skip doc_id doc_info s :
  rebuilt_chunks (pdf_dir s) (filename doc_info) = None →
  _rebuild_vector_store_body PdfReader split_text (doc_id, doc_info) s
  = (Ok tt, s).
Proof.
  unfold rebuilt_chunks, _rebuild_vector_store_body, path_exists.
  unfold bind at 1. unfold gets at 1.
  destruct (pdf_dir s !! filename doc_info) as [bytes|] eqn:E; simpl; [|done].
  unfold try_except, bind at 1. rewrite read_raw_text_run, E.
  destruct (PdfReader bytes) as [pages|e]; [|done].
  by destruct (strip_is_empty (raw_text_of pages)).
Qed.

Lemma rebuild_body_add doc_id doc_info info0 chunks s :
  rebuilt_chunks (pdf_dir s) (filename doc_info) = Some chunks →
  dict_get doc_id (metadata s) = Some info0 →
  _rebuild_vector_store_body PdfReader split_text (doc_id, doc_info) s
  = (Ok tt,
     set_metadata
       (dict_set doc_id (set_chunk_count (length chunks) info0) (metadata s))
       (set_vector_store
          (vector_store s ++ rebuilt_entries (pdf_dir s) (doc_id, doc_info))
          (log_call (FAISS_add_texts chunks) s))).
Proof.
  unfold rebuilt_entries. simpl. intros Hc. rewrite Hc. revert Hc.
  unfold rebuilt_chunks, _rebuild_vector_store_body, path_exists.
  unfold bind at 1. unfold gets at 1.
  destruct (pdf_dir s !! filename doc_info) as [bytes|] eqn:E; simpl; [|done].
  unfold try_except, bind at 1. rewrite read_raw_text_run, E.
  destruct (PdfReader bytes) as [pages|e]; [|done].
  destruct (strip_is_empty (raw_text_of pages)); [done|].
  intros [= <-] Hget.
  unfold add_texts, bind, gets, modify. simpl. by rewrite Hget.
Qed.

Lemma rebuild_body_returns item :
  returns (_rebuild_vector_store_body PdfReader split_text item).
Proof.
  destruct item as [doc_id doc_info]. intros s.
  unfold _rebuild_vector_store_body, bind, gets. simpl.
  destruct (negb (path_exists (filename doc_info) s)).
  - by exists tt.
  - apply returns_try_except. intros e. apply returns_ret.
Qed.

Lemma rebuilt_info_key fs item : (rebuilt_info fs item).1 = item.1.
Proof. unfold rebuilt_info. by destruct (rebuilt_chunks _ _). Qed.

Lemma rebuilt_info_filename fs item :
  filename (rebuilt_info fs item).2 = filename item.2.
Proof. unfold rebuilt_info. by destruct (rebuilt_chunks _ _). Qed.

Lemma rebuilt_info_idemp fs item :
  rebuilt_info fs (rebuilt_info fs item) = rebuilt_info fs item.
Proof.
  unfold rebuilt_info at 1. rewrite rebuilt_info_filename.
  unfold rebuilt_info. destruct (rebuilt_chunks _ _); [|done].
  by destruct item as [k [? ? ? ?]].
Qed.

Lemma keys_rebuilt fs md : keys (map (rebuilt_info fs) md) = keys md.
Proof.
  unfold keys. induction md as [|item md IH]; [done|].
  rewrite !fmap_cons. simpl. by rewrite rebuilt_info_key, <- IH.
Qed.

(** The loop over the items of a well-formed metadata dict: each item is
    rewritten in place and its chunks are appended to the store. *)
Lemma rebuild_loop its : ∀ pre s,
  metadata s = pre ++ its →
  dict_wf (pre ++ its) →
  for_each its (_rebuild_vector_store_body PdfReader split_text) s
  = (Ok tt,
     mkDocumentProcessor (pdf_dir s) (vector_dir s) (metadata_file s)
       (pre ++ map (rebuilt_info (pdf_dir s)) its)
       (vector_store s ++ flat_map (rebuilt_entries (pdf_dir s)) its)
       (calls s ++ flat_map (rebuilt_calls (pdf_dir s)) its)).
Proof.
  induction its as [|[doc_id doc_info] its IH]; intros pre s Hmd Hwf.
  - simpl. rewrite !app_nil_r in *. destruct s; simpl in *. by subst.
  - assert (Hfresh : doc_id ∉ keys pre).
    { unfold dict_wf, keys in Hwf. rewrite fmap_app in Hwf.
      apply NoDup_app in Hwf as (_ & Hdisj & _).
      intros Hin. apply (Hdisj _ Hin). simpl. left. }
    cbn [for_each]. unfold bind at 1.
    destruct (rebuilt_chunks (pdf_dir s) (filename doc_info)) as [chunks|] eqn:Hc.
    + rewrite (rebuild_body_add _ _ doc_info chunks s Hc).
      2:{ rewrite Hmd. by apply dict_get_app_fresh. }
      rewrite (IH (pre ++ [(doc_id, set_chunk_count (length chunks) doc_info)])).
      * simpl. unfold rebuilt_info at 2, rebuilt_calls at 2. simpl. rewrite Hc.
        by rewrite <- !app_assoc.
      * simpl. rewrite Hmd, <- app_assoc. simpl.
        by apply dict_set_app_fresh.
      * unfold dict_wf, keys in *. rewrite <- app_assoc. simpl.
        rewrite fmap_app in *. exact Hwf.
    + rewrite (rebuild_body_skip _ _ _ Hc).
      rewrite (IH (pre ++ [(doc_id, doc_info)])).
      * simpl. unfold rebuilt_info at 2, rebuilt_calls at 2, rebuilt_entries at 2.
        simpl. rewrite Hc. simpl. by rewrite <- !app_assoc.
      * by rewrite <- app_assoc.
      * by rewrite <- app_assoc.
Qed.

(** A full rebuild of a well-formed metadata dict, field by field. *)
Lemma rebuild_spec s :
  dict_wf (metadata s) →
  _rebuild_vector_store PdfReader split_text s
  = (Ok tt,
     let md := map (rebuilt_info (pdf_dir s)) (metadata s) in
     let vs := placeholder :: flat_map (rebuilt_entries (pdf_dir s)) (metadata s) in
     mkDocumentProcessor (pdf_dir s) (Saved vs) (Saved md) md vs
       (calls s ++ FAISS_from_texts ["placeholder content"]
          :: flat_map (rebuilt_calls (pdf_dir s)) (metadata s)
          ++ [FAISS_save_local])).
Proof.
  intros Hwf. unfold _rebuild_vector_store.
  unfold bind at 1. unfold from_texts at 1, bind at 1, modify at 1, ret at 1.
  unfold bind at 1, modify at 1. unfold bind at 1, gets at 1.
  cbn [metadata set_vector_store]. unfold bind at 1.
  rewrite (rebuild_loop _ []); [|done|done].
  unfold save_local, _save_metadata, bind, modify. simpl.
  f_equal. unfold set_metadata_file, set_vector_dir, log_call. simpl.
  f_equal. by rewrite <- !app_assoc.
Qed.

(** Without any assumption on the keys: the store only grows by the
    chunks of the files that are present, readable and not blank. *)
Lemma rebuild_body_key_error doc_id doc_info chunks s :
  rebuilt_chunks (pdf_dir s) (filename doc_info) = Some chunks →
  dict_get doc_id (metadata s) = None →
  _rebuild_vector_store_body PdfReader split_text (doc_id, doc_info) s
  = (Ok tt,
     set_vector_store
       (vector_store s ++ rebuilt_entries (pdf_dir s) (doc_id, doc_info))
       (log_call (FAISS_add_texts chunks) s)).
Proof.
  unfold rebuilt_entries. simpl. intros Hc. rewrite Hc. revert Hc.
  unfold rebuilt_chunks, _rebuild_vector_store_body, path_exists.
  unfold bind at 1. unfold gets at 1.
  destruct (pdf_dir s !! filename doc_info) as [bytes|] eqn:E; simpl; [|done].
  unfold try_except, bind at 1. rewrite read_raw_text_run, E.
  destruct (PdfReader bytes) as [pages|e]; [|done].
  destruct (strip_is_empty (raw_text_of pages)); [done|].
  intros [= <-] Hget.
  unfold add_texts, bind, gets, modify, raise. simpl. by rewrite Hget.
Qed.

(** The straight-line part of [_rebuild_vector_store] around its loop. *)
Lemma rebuild_unfold s :
  _rebuild_vector_store PdfReader split_text s
  = match
      for_each (metadata s) (_rebuild_vector_store_body PdfReader split_text)
        (set_vector_store [placeholder]
           (log_call (FAISS_from_texts ["placeholder content"]) s))
    with
    | (Ok _, s1) =>
        (Ok tt,
         set_metadata_file (Saved (metadata s1))
           (set_vector_dir (Saved (vector_store s1))
              (log_call FAISS_save_local s1)))
    | (Raise e, s1) => (Raise e, s1)
    end.
Proof. reflexivity. Qed.

Lemma rebuild_body_store item s :
  ∃ s', _rebuild_vector_store_body PdfReader split_text item s = (Ok tt, s') ∧
        pdf_dir s' = pdf_dir s ∧
        vector_store s' = vector_store s ++ rebuilt_entries (pdf_dir s) item.
Proof.
  destruct item as [doc_id doc_info].
  destruct (rebuilt_chunks (pdf_dir s) (filename doc_info)) as [chunks|] eqn:Hc.
  - destruct (dict_get doc_id (metadata s)) as [info0|] eqn:Hget.
    + eexists. split; [exact (rebuild_body_add _ _ _ _ _ Hc Hget)|done].
    + eexists. split; [exact (rebuild_body_key_error _ _ _ _ Hc Hget)|done].
  - exists s. split; [exact (rebuild_body_skip _ _ _ Hc)|].
    unfold rebuilt_entries. simpl. rewrite Hc. by rewrite app_nil_r.
Qed.

Lemma rebuild_loop_store its : ∀ s,
  ∃ s', for_each its (_rebuild_vector_store_body PdfReader split_text) s
        = (Ok tt, s') ∧
        pdf_dir s' = pdf_dir s ∧
        vector_store s'
        = vector_store s ++ flat_map (rebuilt_entries (pdf_dir s)) its.
Proof.
  induction its as [|item its IH]; intros s.
  - exists s. simpl. by rewrite app_nil_r.
  - destruct (rebuild_body_store item s) as (s1 & Hrun & Hfs & Hvs).
    destruct (IH s1) as (s2 & Hrun' & Hfs' & Hvs').
    exists s2. cbn [for_each flat_map]. unfold bind. rewrite Hrun, Hrun'.
    rewrite Hfs', Hvs', Hvs, Hfs. by rewrite <- app_assoc.
Qed.

(** A rebuild never raises; it resets the store to the placeholder
    followed by the chunks of every document, and persists both the store
    and the metadata. *)
Lemma rebuild_store s :
  ∃ s', _rebuild_vector_store PdfReader split_text s = (Ok tt, s') ∧
        pdf_dir s' = pdf_dir s ∧
        vector_store s'
        = placeholder :: flat_map (rebuilt_entries (pdf_dir s)) (metadata s) ∧
        vector_dir s' = Saved (vector_store s') ∧
        metadata_file s' = Saved (metadata s').
Proof.
  rewrite rebuild_unfold.
  destruct (rebuild_loop_store (metadata s)
              (set_vector_store [placeholder]
                 (log_call (FAISS_from_texts ["placeholder content"]) s)))
    as (s1 & Hrun & Hfs & Hvs).
  rewrite Hrun. eexists. split; [reflexivity|]. simpl. by rewrite Hfs, Hvs.
Qed.

(** Every entry a rebuild adds for an item carries the item's file name
    as its source, and that file exists. *)
Lemma rebuilt_entries_source fs item d :
  d ∈ rebuilt_entries fs item →
  dict_get "source" (doc_metadata d) = Some (filename item.2) ∧
  is_Some (fs !! filename item.2) ∧
  not_placeholder d = negb (String.eqb item.1 "placeholder").
Proof.
  unfold rebuilt_entries.
  destruct (rebuilt_chunks fs (filename item.2)) as [chunks|] eqn:Hc.
  2:{ intros H. by apply elem_of_nil in H. }
  assert (Hfile : is_Some (fs !! filename item.2)).
  { unfold rebuilt_chunks in Hc. by destruct (fs !! filename item.2). }
  unfold documents. intros Hd.
  apply elem_of_lookup_zip_with in Hd as (i & t & m & -> & _ & Hm).
  assert (m = [("source", filename item.2); ("doc_id", item.1)]) as ->.
  { clear -Hm. revert i Hm. induction chunks as [|c cs IH]; intros [|i]; simpl;
      [done | done | by intros [= <-] | apply IH]. }
  done.
Qed.

Lemma rebuilt_entries_length fs item :
  length (rebuilt_entries fs item)
  = match rebuilt_chunks fs (filename item.2) with
    | Some chunks => length chunks
    | None => 0
    end.
Proof.
  unfold rebuilt_entries, documents.
  destruct (rebuilt_chunks fs (filename item.2)) as [chunks|]; [|done].
  rewrite length_zip_with, length_map. lia.
Qed.

Lemma dict_get_rebuilt fs k md :
  dict_get k (map (rebuilt_info fs) md)
  = (λ info, (rebuilt_info fs (k, info)).2) <$> dict_get k md.
Proof.
  induction md as [|[k' v'] md IH]; [done|]. cbn [map dict_get].
  pose proof (rebuilt_info_key fs (k', v')) as Hkey.
  destruct (rebuilt_info fs (k', v')) as [k'' v''] eqn:E. simpl in Hkey. subst k''.
  destruct (String.eqb_spec k' k) as [->|Hne]; [|exact IH].
  simpl. by rewrite E.
Qed.

End Rebuild.

(** ** Index rebuild *)

Section RebuildClaims.

Variable PdfReader : list Byte.byte → py (list (option string)).
Variable split_text : string → list string.

(** C9: rebuilding is idempotent.  Two rebuilds in a row, with the PDF
    directory and the set of documents untouched in between, both return,
    keep the same documents, and leave every document with the chunk count
    the first rebuild gave it. *)
Theorem rebuild_idempotent (s : DocumentProcessor) :
  dict_wf (metadata s) →
  ∃ s1 s2,
    _rebuild_vector_store PdfReader split_text s = (Ok tt, s1) ∧
    _rebuild_vector_store PdfReader split_text s1 = (Ok tt, s2) ∧
    keys (metadata s2) = keys (metadata s1) ∧
    ∀ doc_id,
      chunk_count <$> dict_get doc_id (metadata s2)
      = chunk_count <$> dict_get doc_id (metadata s1).
Proof.
  intros Hwf.
  pose proof (rebuild_spec PdfReader split_text s Hwf) as H1.
  cbv zeta in H1. eexists. eexists. split; [exact H1|].
  match type of H1 with _ = (_, ?s1) =>
    assert (Hwf1 : dict_wf (metadata s1))
  end.
  { unfold dict_wf. simpl. by rewrite keys_rebuilt. }
  pose proof (rebuild_spec PdfReader split_text _ Hwf1) as H2.
  cbv zeta in H2. cbn [pdf_dir metadata calls] in H2.
  split; [exact H2|]. cbn [metadata].
  assert (Hidem : map (rebuilt_info PdfReader split_text (pdf_dir s))
                    (map (rebuilt_info PdfReader split_text (pdf_dir s))
                       (metadata s))
                  = map (rebuilt_info PdfReader split_text (pdf_dir s))
                      (metadata s)).
  { rewrite map_map. apply map_ext. intros item. apply rebuilt_info_idemp. }
  rewrite Hidem. done.
Qed.

End RebuildClaims.

(** The idempotence statement on a processor with two documents. *)
Lemma rebuild_idempotent_witness :
  dict_wf (metadata Demo.lagging) ∧
  ∃ s1 s2,
    _rebuild_vector_store Demo.reader Demo.split Demo.lagging = (Ok tt, s1) ∧
    _rebuild_vector_store Demo.reader Demo.split s1 = (Ok tt, s2) ∧
    keys (metadata s2) = keys (metadata s1) ∧
    ∀ doc_id,
      chunk_count <$> dict_get doc_id (metadata s2)
      = chunk_count <$> dict_get doc_id (metadata s1).
Proof.
  assert (Hwf : dict_wf (metadata Demo.lagging)).
  { apply (bool_decide_unpack _). vm_compute. reflexivity. }
  split; [exact Hwf|].
  apply (rebuild_idempotent Demo.reader Demo.split Demo.lagging Hwf).
Defined.

(** ** Startup reconciliation *)

Section Startup.

Variable PdfReader : list Byte.byte → py (list (option string)).
Variable split_text : string → list string.

Local Abbreviation indexed_chunk_count :=
  (indexed_chunk_count PdfReader split_text).

Lemma init_unfold pdfs index json :
  json ≠ Misshapen →
  DocumentProcessor__init__ PdfReader split_text pdfs index json
  = _ensure_vector_store_populated PdfReader split_text (loaded pdfs index json).
Proof. by destruct index, json. Qed.

Lemma init_misshapen pdfs index :
  DocumentProcessor__init__ PdfReader split_text pdfs index Misshapen
  = (Raise "KeyError", loaded pdfs index Misshapen).
Proof. by destruct index. Qed.

Lemma ensure_unfold pdfs index json :
  _ensure_vector_store_populated PdfReader split_text (loaded pdfs index json)
  = if startup_rebuilds pdfs index json
    then _rebuild_vector_store PdfReader split_text (loaded pdfs index json)
    else (Ok tt, loaded pdfs index json).
Proof.
  unfold _ensure_vector_store_populated, startup_rebuilds, bind, gets.
  cbn [id loaded metadata vector_store pdf_dir].
  destruct (_ && negb _); destruct (_ <=? 1)%nat; destruct (_ && _); done.
Qed.

Lemma rebuilt_length fs md :
  length (flat_map (rebuilt_entries PdfReader split_text fs) md)
  = indexed_chunk_count fs (map (rebuilt_info PdfReader split_text fs) md).
Proof.
  unfold indexed_chunk_count. induction md as [|item md IH]; [done|].
  cbn [flat_map map sum_list sum_list_with].
  rewrite length_app, IH, rebuilt_entries_length, rebuilt_info_filename.
  f_equal. unfold rebuilt_info.
  by destruct (rebuilt_chunks _ _ _ _).
Qed.

Lemma indexed_all fs md :
  (∀ item, item ∈ md →
     rebuilt_chunks PdfReader split_text fs (filename item.2) ≠ None) →
  indexed_chunk_count fs md = aggregate_chunk_count md.
Proof.
  unfold indexed_chunk_count, aggregate_chunk_count.
  induction md as [|item md IH]; intros Hall; [done|]. simpl.
  rewrite IH by (intros x Hx; apply Hall; by right).
  specialize (Hall item (list_elem_of_here _ _)).
  by destruct (rebuilt_chunks _ _ _ _).
Qed.


End Startup.



(** ** Search *)

Section Search.

Context {Score : Type}.
Variable similarity_search_with_score :
  list Document → string → Z → py (list (Document * Score)).

Lemma search_unfold query k s :
  search_documents similarity_search_with_score query k s
  = if Nat.eqb (length (metadata s)) 0 then (Ok [], s)
    else
      let s' := log_call (FAISS_similarity_search_with_score query k) s in
      match similarity_search_with_score (vector_store s) query k with
      | Ok results =>
          (Ok (List.filter (λ '(doc, score), not_placeholder doc) results), s')
      | Raise _ => (Ok [], s')
      end.
Proof.
  unfold search_documents, try_except, bind, gets, modify, lift, ret.
  destruct (Nat.eqb (length (metadata s)) 0); [done|]. simpl.
  by destruct (similarity_search_with_score (vector_store s) query k).
Qed.

Lemma not_placeholder_doc_id doc :
  not_placeholder doc = true →
  dict_get "doc_id" (doc_metadata doc) ≠ Some "placeholder".
Proof.
  unfold not_placeholder.
  destruct (dict_get "doc_id" (doc_metadata doc)) as [v|]; [|done].
  intros Hv [= ->]. done.
Qed.

Lemma search_returns query k s :
  ∃ results s',
    search_documents similarity_search_with_score query k s = (Ok results, s').
Proof.
  rewrite search_unfold.
  destruct (Nat.eqb (length (metadata s)) 0); [by eexists _, _|]. cbv zeta.
  destruct (similarity_search_with_score (vector_store s) query k);
    by eexists _, _.
Qed.

Lemma search_filters_results query k s :
  ∃ results s',
    search_documents similarity_search_with_score query k s = (Ok results, s') ∧
    ∀ doc score, (doc, score) ∈ results → not_placeholder doc = true.
Proof.
  rewrite search_unfold.
  destruct (Nat.eqb (length (metadata s)) 0).
  { exists [], s. split; [done|]. intros doc score H. by apply elem_of_nil in H. }
  cbv zeta.
  destruct (similarity_search_with_score (vector_store s) query k) as [raw|e].
  - eexists _, _. split; [reflexivity|]. intros doc score Hin.
    by apply list_elem_of_In, filter_In in Hin as [_ Hin].
  - eexists _, _. split; [reflexivity|]. intros doc score H.
    by apply elem_of_nil in H.
Qed.

(** C4: a search never raises, and no result it returns carries the
    placeholder document id, whatever the query, the value of [k] and the
    raw results of the index. *)
Theorem search_filters_placeholder query k (s : DocumentProcessor) :
  ∃ results s',
    search_documents similarity_search_with_score query k s = (Ok results, s') ∧
    ∀ doc score, (doc, score) ∈ results →
      dict_get "doc_id" (doc_metadata doc) ≠ Some "placeholder".
Proof.
  rewrite search_unfold.
  destruct (Nat.eqb (length (metadata s)) 0).
  { exists [], s. split; [done|]. intros doc score H. by apply elem_of_nil in H. }
  cbv zeta.
  destruct (similarity_search_with_score (vector_store s) query k) as [raw|e].
  - eexists _, _. split; [reflexivity|]. intros doc score Hin.
    apply list_elem_of_In, filter_In in Hin as [_ Hin].
    by apply not_placeholder_doc_id.
  - eexists _, _. split; [reflexivity|]. intros doc score H.
    by apply elem_of_nil in H.
Qed.

(** C5: with no documents in the metadata the search returns the empty list
    and leaves the processor as it was; in particular nothing is added to
    the log of calls to the vector index, through which the embedding
    gateway is reached. *)
Theorem search_without_documents query k (s : DocumentProcessor) :
  metadata s = [] →
  search_documents similarity_search_with_score query k s = (Ok [], s).
Proof. intros Hmd. rewrite search_unfold. by rewrite Hmd. Qed.

End Search.

(** The empty-metadata statement on a processor without documents. *)
Lemma search_without_documents_witness :
  metadata Demo.empty = [] ∧
  search_documents Demo.search "retention period" 3 Demo.empty
  = (Ok [], Demo.empty).
Proof.
  split; [reflexivity|].
  apply (search_without_documents Demo.search "retention period" 3 Demo.empty).
  reflexivity.
Defined.

(** ** Deletion *)

Section Delete.

Variable PdfReader : list Byte.byte → py (list (option string)).
Variable split_text : string → list string.

Lemma delete_unfold doc_id info s :
  dict_get doc_id (metadata s) = Some info →
  delete_document PdfReader split_text doc_id s
  = match _rebuild_vector_store PdfReader split_text (removed doc_id info s) with
    | (Ok _, s') => (Ok true, s')
    | (Raise e, s') => (Raise e, s')
    end.
Proof.
  intros Hget. unfold delete_document.
  unfold bind at 1. unfold gets at 1. rewrite Hget.
  unfold bind at 1. unfold gets at 1. unfold path_exists.
  destruct (pdf_dir s !! filename info) as [bytes|] eqn:E.
  - reflexivity.
  - unfold removed. rewrite (delete_id _ _ E). by destruct s.
Qed.

Lemma delete_unknown doc_id s :
  dict_get doc_id (metadata s) = None →
  delete_document PdfReader split_text doc_id s = (Ok false, s).
Proof.
  intros Hget. unfold delete_document, bind, gets. by rewrite Hget.
Qed.

(** C8: [delete_document] returns false, changing nothing, exactly when the
    id is not in the metadata.  For a known id it returns true; the file of
    the document is gone from the PDF directory whether or not it was there,
    the entry is gone from the metadata, the metadata is saved, and the
    index is the result of a full rebuild over the remaining documents,
    saved as well. *)
Theorem delete_document_spec doc_id (s : DocumentProcessor) :
  dict_wf (metadata s) →
  match dict_get doc_id (metadata s) with
  | None => delete_document PdfReader split_text doc_id s = (Ok false, s)
  | Some info =>
      ∃ s',
        delete_document PdfReader split_text doc_id s = (Ok true, s') ∧
        _rebuild_vector_store PdfReader split_text (removed doc_id info s)
        = (Ok tt, s') ∧
        pdf_dir s' = delete (filename info) (pdf_dir s) ∧
        dict_get doc_id (metadata s') = None ∧
        keys (metadata s') = keys (dict_del doc_id (metadata s)) ∧
        metadata_file s' = Saved (metadata s') ∧
        vector_store s'
        = placeholder
            :: flat_map (rebuilt_entries PdfReader split_text (pdf_dir s'))
                 (dict_del doc_id (metadata s)) ∧
        vector_dir s' = Saved (vector_store s')
  end.
Proof.
  intros Hwf. destruct (dict_get doc_id (metadata s)) as [info|] eqn:Hget.
  2:{ by apply delete_unknown. }
  rewrite (delete_unfold _ _ _ Hget).
  assert (Hwf' : dict_wf (metadata (removed doc_id info s))).
  { simpl. by apply dict_del_wf. }
  pose proof (rebuild_spec PdfReader split_text _ Hwf') as Hspec.
  cbv zeta in Hspec. rewrite Hspec. eexists. split; [reflexivity|].
  split; [reflexivity|]. cbn [pdf_dir metadata metadata_file vector_store
                              vector_dir removed].
  rewrite keys_rebuilt. repeat split.
  apply dict_get_None. rewrite keys_rebuilt. apply dict_get_None.
  by apply dict_get_del.
Qed.

Context {Score : Type}.
Variable similarity_search_with_score :
  list Document → string → Z → py (list (Document * Score)).

(** The index answers a similarity search with entries it holds. *)
Hypothesis search_sound : ∀ store query k results,
  similarity_search_with_score store query k = Ok results →
  ∀ doc score, (doc, score) ∈ results → doc ∈ store.

(** C3: after [delete_document] on a known id, a search with [k] at least
    one, for any query, returns no result whose source is the file name of
    the deleted document. *)
Theorem deleted_source_not_returned doc_id info query k (s : DocumentProcessor) :
  dict_get doc_id (metadata s) = Some info →
  (1 ≤ k)%Z →
  ∃ s1 results s2,
    delete_document PdfReader split_text doc_id s = (Ok true, s1) ∧
    search_documents similarity_search_with_score query k s1
    = (Ok results, s2) ∧
    ∀ doc score, (doc, score) ∈ results →
      dict_get "source" (doc_metadata doc) ≠ Some (filename info).
Proof.
  intros Hget _. rewrite (delete_unfold _ _ _ Hget).
  destruct (rebuild_store PdfReader split_text (removed doc_id info s))
    as (s1 & Hrun & Hfs & Hvs & _).
  rewrite Hrun. exists s1.
  rewrite search_unfold.
  destruct (Nat.eqb (length (metadata s1)) 0).
  { eexists _, _. split; [reflexivity|]. split; [reflexivity|].
    intros doc score H. by apply elem_of_nil in H. }
  cbv zeta.
  destruct (similarity_search_with_score (vector_store s1) query k)
    as [raw|e] eqn:Hraw.
  2:{ eexists _, _. split; [reflexivity|]. split; [reflexivity|].
      intros doc score H. by apply elem_of_nil in H. }
  eexists _, _. split; [reflexivity|]. split; [reflexivity|].
  intros doc score Hin.
  apply list_elem_of_In, filter_In in Hin as [Hin Hkeep].
  apply list_elem_of_In in Hin.
  pose proof (search_sound _ _ _ _ Hraw _ _ Hin) as Hstore.
  rewrite Hvs in Hstore. apply elem_of_cons in Hstore as [->|Hstore].
  { discriminate Hkeep. }
  apply list_elem_of_In, in_flat_map in Hstore as (item & _ & Hitem).
  apply list_elem_of_In, rebuilt_entries_source in Hitem
    as (Hsource & [bytes Hfile] & _).
  rewrite Hsource. intros [= Heq]. rewrite Heq in Hfile.
  simpl in Hfile. by rewrite lookup_delete_eq in Hfile.
Qed.

End Delete.

Lemma Demo_search_sound store query k results :
  Demo.search store query k = Ok results →
  ∀ doc score, (doc, score) ∈ results → doc ∈ store.
Proof.
  intros [= <-] doc score Hin.
  apply elem_of_take in Hin as (i & Hin & _).
  apply list_elem_of_lookup_2 in Hin. by apply elem_of_zip_l in Hin.
Qed.

(** The deletion statement on a processor with two documents. *)
Lemma delete_document_spec_witness :
  dict_wf (metadata Demo.lagging) ∧
  ∃ s',
    delete_document Demo.reader Demo.split "d1" Demo.lagging = (Ok true, s') ∧
    _rebuild_vector_store Demo.reader Demo.split
      (removed "d1" (Demo.info "a.pdf" 3) Demo.lagging) = (Ok tt, s') ∧
    pdf_dir s' = delete "a.pdf" (pdf_dir Demo.lagging) ∧
    dict_get "d1" (metadata s') = None ∧
    keys (metadata s') = keys (dict_del "d1" (metadata Demo.lagging)) ∧
    metadata_file s' = Saved (metadata s') ∧
    vector_store s'
    = placeholder
        :: flat_map (rebuilt_entries Demo.reader Demo.split (pdf_dir s'))
             (dict_del "d1" (metadata Demo.lagging)) ∧
    vector_dir s' = Saved (vector_store s').
Proof.
  assert (Hwf : dict_wf (metadata Demo.lagging)).
  { apply (bool_decide_unpack _). vm_compute. reflexivity. }
  split; [exact Hwf|].
  exact (delete_document_spec Demo.reader Demo.split "d1" Demo.lagging Hwf).
Defined.

(** The delete-then-search statement: deleting [d1] and searching with
    [k = 3]. *)
Lemma deleted_source_not_returned_witness :
  ∃ s1 results s2,
    delete_document Demo.reader Demo.split "d1" Demo.lagging = (Ok true, s1) ∧
    search_documents Demo.search "retention period" 3 s1 = (Ok results, s2) ∧
    ∀ doc score, (doc, score) ∈ results →
      dict_get "source" (doc_metadata doc) ≠ Some "a.pdf".
Proof.
  apply (deleted_source_not_returned Demo.reader Demo.split Demo.search
           Demo_search_sound "d1" (Demo.info "a.pdf" 3) "retention period" 3
           Demo.lagging).
  - reflexivity.
  - lia.
Defined.

(** ** Ingestion *)

Section Ingest.

Variable PdfReader : list Byte.byte → py (list (option string)).
Variable split_text : string → list string.
Variable writable : string → bool.

Lemma process_pdf_unfold pdf_file filename fresh_id now s :
  process_pdf PdfReader split_text writable pdf_file filename fresh_id now s
  = let name := stored_name filename fresh_id in
    let saved := set_pdf_dir (<[name := pdf_file]> (pdf_dir s)) s in
    if writable name then
      match PdfReader pdf_file with
      | Raise _ => (Ok false, saved)
      | Ok pages =>
          if strip_is_empty (raw_text_of pages) then (Ok false, saved)
          else
            (Ok true,
             ingested name fresh_id now pdf_file
               (split_text (raw_text_of pages)) s)
      end
    else (Ok false, s).
Proof.
  unfold process_pdf. fold (stored_name filename fresh_id). cbv zeta.
  set (name := stored_name filename fresh_id).
  unfold try_except, bind at 1. unfold write_pdf.
  destruct (writable name); [|done]. unfold modify at 1.
  unfold bind at 1. rewrite read_raw_text_run. cbn [pdf_dir set_pdf_dir].
  rewrite lookup_insert_eq.
  destruct (PdfReader pdf_file) as [pages|e]; [|done].
  destruct (strip_is_empty (raw_text_of pages)); [done|].
  unfold add_texts, save_local, _save_metadata, bind, modify, ret. simpl.
  unfold ingested, set_metadata_file, set_metadata, set_vector_dir,
    set_vector_store, log_call. simpl.
  by rewrite <- app_assoc.
Qed.

(** C2: when the text extracted from the uploaded file is empty or white
    space only, [process_pdf] returns false and the only change is the file
    saved in the PDF directory, under the stored name, when the file system
    takes it: the index, its saved copy, the metadata, its saved copy and
    the log of index calls are untouched. *)
Theorem process_pdf_blank pdf_file filename fresh_id now pages
    (s : DocumentProcessor) :
  PdfReader pdf_file = Ok pages →
  strip_is_empty (raw_text_of pages) = true →
  ∃ s',
    process_pdf PdfReader split_text writable pdf_file filename fresh_id now s
    = (Ok false, s') ∧
    pdf_dir s'
    = (if writable (stored_name filename fresh_id)
       then <[stored_name filename fresh_id := pdf_file]> (pdf_dir s)
       else pdf_dir s) ∧
    vector_store s' = vector_store s ∧
    vector_dir s' = vector_dir s ∧
    metadata s' = metadata s ∧
    metadata_file s' = metadata_file s ∧
    calls s' = calls s.
Proof.
  intros Hread Hblank. rewrite process_pdf_unfold. cbv zeta.
  rewrite Hread, Hblank.
  destruct (writable (stored_name filename fresh_id)); by eexists.
Qed.

End Ingest.

(** The blank-upload statement on a file of three spaces. *)
Lemma process_pdf_blank_witness :
  ∃ s',
    process_pdf Demo.reader Demo.split Demo.writable (Demo.file "   ")
      (Some "scan") "d3" "2024-01-02T00:00:00" Demo.lagging = (Ok false, s') ∧
    pdf_dir s'
    = (if Demo.writable (stored_name (Some "scan") "d3")
       then <[stored_name (Some "scan") "d3" := Demo.file "   "]>
              (pdf_dir Demo.lagging)
       else pdf_dir Demo.lagging) ∧
    vector_store s' = vector_store Demo.lagging ∧
    vector_dir s' = vector_dir Demo.lagging ∧
    metadata s' = metadata Demo.lagging ∧
    metadata_file s' = metadata_file Demo.lagging ∧
    calls s' = calls Demo.lagging.
Proof.
  apply (process_pdf_blank Demo.reader Demo.split Demo.writable
           (Demo.file "   ") (Some "scan") "d3" "2024-01-02T00:00:00"
           [Some "   "] Demo.lagging).
  - reflexivity.
  - reflexivity.
Defined.

(** ** Chat *)

Section Chat.

Context {Score : Type}.
Variable similarity_search_with_score :
  list Document → string → Z → py (list (Document * Score)).
Variable generate_content : string → string → py GenerateContentResponse.

Local Abbreviation search := (search_documents similarity_search_with_score).
Local Abbreviation respond :=
  (generate_response similarity_search_with_score generate_content).

Lemma respond_empty query k c dp :
  search query k (document_processor c) = (Ok [], dp) →
  respond query k c
  = (Ok (no_information_message, []),
     mkComplianceChatbot dp (model_name c) (chat_history c) (prompts c)).
Proof.
  intros Hsearch. unfold generate_response, bind, on_document_processor.
  by rewrite Hsearch.
Qed.

Lemma respond_nonempty query k c results dp :
  search query k (document_processor c) = (Ok results, dp) →
  results ≠ [] →
  let p := prompt_of results query in
  let c1 := mkComplianceChatbot dp (model_name c) (chat_history c)
              (prompts c ++ [p]) in
  respond query k c
  = match response_text generate_content (model_name c) p with
    | Ok t =>
        (Ok (t, map (λ '(doc, score),
                       mkSource (metadata_get_or_unknown "source" doc) score
                         (metadata_get_or_unknown "doc_id" doc)) results),
         set_chat_history
           (capped (chat_history c
                      ++ [mkMessage "user" query; mkMessage "assistant" t]))
           c1)
    | Raise _ => (Ok (error_message, []), c1)
    end.
Proof.
  intros Hsearch Hne. cbv zeta.
  unfold generate_response. unfold bind at 1. unfold on_document_processor.
  rewrite Hsearch. destruct results as [|r0 results]; [done|].
  fold (prompt_of (r0 :: results) query).
  unfold response_text, try_except, bind, gets, modify, lift, ret.
  cbn [model_name log_prompt].
  destruct (generate_content (model_name c) (prompt_of (r0 :: results) query))
    as [response|e]; [|done].
  destruct (text response) as [t|e]; [|done].
  cbn [chat_history set_chat_history]. unfold capped.
  rewrite <- app_assoc. cbn [app].
  by destruct (20 <? _)%nat.
Qed.

(** C6: when the search returns no result, [generate_response] returns the
    fixed no-information message with an empty source list, and no prompt
    is sent to the model; the transcript is unchanged too. *)
Theorem no_results_no_model_call query k (c : ComplianceChatbot) dp :
  search query k (document_processor c) = (Ok [], dp) →
  ∃ c',
    respond query k c = (Ok (no_information_message, []), c') ∧
    prompts c' = prompts c ∧
    chat_history c' = chat_history c.
Proof.
  intros Hsearch. eexists. split; [by apply respond_empty|]. done.
Qed.

(** C7: when the search found something, so that the model is called, and
    the call raises or reading the text of its response raises,
    [generate_response] does not raise: it returns the fixed error message
    with an empty source list. *)
Theorem model_failure_is_reported query k (c : ComplianceChatbot) results dp e :
  search query k (document_processor c) = (Ok results, dp) →
  results ≠ [] →
  response_text generate_content (model_name c) (prompt_of results query)
  = Raise e →
  ∃ c',
    respond query k c = (Ok (error_message, []), c') ∧
    prompts c' = prompts c ++ [prompt_of results query].
Proof.
  intros Hsearch Hne Hfail.
  rewrite (respond_nonempty _ _ _ _ _ Hsearch Hne). cbv zeta. rewrite Hfail.
  eexists. split; [reflexivity|]. done.
Qed.

(** C10: the transcript changes only when the model answers.  A response
    with no search results, or one whose model call or text read raises,
    leaves [chat_history] exactly as it was; a successful one appends the
    user and assistant messages and then keeps the last twenty entries. *)
Theorem transcript_changes_only_on_success query k (c : ComplianceChatbot) :
  ∃ results dp r c',
    search query k (document_processor c) = (Ok results, dp) ∧
    respond query k c = (r, c') ∧
    match results with
    | [] => chat_history c' = chat_history c
    | _ :: _ =>
        match response_text generate_content (model_name c)
                (prompt_of results query) with
        | Raise _ => chat_history c' = chat_history c
        | Ok t =>
            chat_history c'
            = capped (chat_history c
                        ++ [mkMessage "user" query; mkMessage "assistant" t])
        end
    end.
Proof.
  destruct (search_returns similarity_search_with_score query k
              (document_processor c)) as (results & dp & Hsearch).
  exists results, dp. destruct results as [|r0 results].
  - eexists _, _. split; [exact Hsearch|].
    split; [by apply respond_empty|]. done.
  - assert (Hne : r0 :: results ≠ []) by done.
    rewrite (respond_nonempty _ _ _ _ _ Hsearch Hne). cbv zeta.
    destruct (response_text _ _ _) as [t|e].
    + eexists _, _. split; [exact Hsearch|]. split; [reflexivity|]. done.
    + eexists _, _. split; [exact Hsearch|]. split; [reflexivity|]. done.
Qed.

End Chat.

(** The no-results statement on a chatbot whose processor has no
    documents. *)
Lemma no_results_no_model_call_witness :
  search_documents Demo.search "retention period" 5 Demo.empty
  = (Ok [], Demo.empty) ∧
  ∃ c',
    generate_response Demo.search Demo.llm_ok "retention period" 5
      (ComplianceChatbot__init__ Demo.empty)
    = (Ok (no_information_message, []), c') ∧
    prompts c' = [] ∧
    chat_history c' = [].
Proof.
  split; [reflexivity|].
  apply (no_results_no_model_call Demo.search Demo.llm_ok "retention period" 5
           (ComplianceChatbot__init__ Demo.empty) Demo.empty).
  reflexivity.
Defined.

(** The model-failure statement with a model whose response has no readable
    text. *)
Lemma model_failure_is_reported_witness :
  ∃ c',
    generate_response Demo.search Demo.llm_blocked "retention period" 5
      (ComplianceChatbot__init__ Demo.lagging)
    = (Ok (error_message, []), c') ∧
    prompts c' = [prompt_of Demo.found "retention period"].
Proof.
  apply (model_failure_is_reported Demo.search Demo.llm_blocked
           "retention period" 5 (ComplianceChatbot__init__ Demo.lagging)
           Demo.found
           (log_call (FAISS_similarity_search_with_score "retention period" 5)
              Demo.lagging)
           "ValueError").
  - reflexivity.
  - discriminate.
  - reflexivity.
Defined.

(** * Further properties *)

(** ** Embedding gateway *)

Section Embeddings.

Context {Float : Type}.
Variable zero : Float.
Variable embed_content : string → string → string → py (list Float).
Variable model_name : string.

Local Abbreviation embed_step :=
  (λ text : string,
     bind (lift (embed_content model_name text "retrieval_document"))
       (λ embedding,
          modify (λ embeddings : list (list Float), embeddings ++ [embedding]))).

Lemma embed_loop_ok texts : ∀ vectors acc,
  Forall2 (λ text v, embed_content model_name text "retrieval_document" = Ok v)
    texts vectors →
  for_each texts embed_step acc = (Ok tt, acc ++ vectors).
Proof.
  induction texts as [|text texts IH]; intros vectors acc Hall.
  - apply Forall2_nil_inv_l in Hall as ->. simpl. by rewrite app_nil_r.
  - apply Forall2_cons_inv_l in Hall as (v & vs & Hv & Hvs & ->).
    cbn [for_each]. unfold bind at 1. unfold bind at 1, lift. rewrite Hv.
    unfold modify. rewrite (IH vs _ Hvs). by rewrite <- app_assoc.
Qed.

Lemma embed_loop_raise texts : ∀ text e acc,
  text ∈ texts →
  embed_content model_name text "retrieval_document" = Raise e →
  ∃ e' acc', for_each texts embed_step acc = (Raise e', acc').
Proof.
  induction texts as [|t texts IH]; intros text e acc Hin Hfail.
  - by apply elem_of_nil in Hin.
  - cbn [for_each]. unfold bind at 1. unfold bind at 1, lift.
    destruct (embed_content model_name t "retrieval_document") as [v|e0] eqn:Ht.
    + apply elem_of_cons in Hin as [->|Hin]; [congruence|].
      unfold modify. cbv beta iota.
      destruct (IH text e (acc ++ [v]) Hin Hfail) as (e' & acc' & Hrun).
      exists e', acc'. exact Hrun.
    + by eexists _, _.
Qed.

Lemma embed_all_ok texts vectors :
  Forall2 (λ text v, embed_content model_name text "retrieval_document" = Ok v)
    texts vectors →
  embed_documents zero embed_content model_name texts = Ok vectors.
Proof.
  intros Hall. unfold embed_documents, try_except. unfold bind at 1.
  rewrite (embed_loop_ok _ _ _ Hall). reflexivity.
Qed.

Lemma embed_failure texts text e :
  text ∈ texts →
  embed_content model_name text "retrieval_document" = Raise e →
  embed_documents zero embed_content model_name texts
  = Ok (replicate (length texts) (replicate 768 zero)).
Proof.
  intros Hin Hfail. unfold embed_documents, try_except. unfold bind at 1.
  destruct (embed_loop_raise texts text e [] Hin Hfail) as (e' & acc' & ->).
  reflexivity.
Qed.

(** X1: All the texts embed: the result is their embeddings, in order. *)
Theorem embed_documents_all_ok texts vectors :
  Forall2 (λ text v, embed_content model_name text "retrieval_document" = Ok v)
    texts vectors →
  embed_documents zero embed_content model_name texts = Ok vectors.
Proof. apply embed_all_ok. Qed.

(** X2: One text fails to embed: every text, also those embedded before the
    failure, gets the vector of 768 zeros, and nothing is raised. *)
Theorem embed_documents_failure texts text e :
  text ∈ texts →
  embed_content model_name text "retrieval_document" = Raise e →
  embed_documents zero embed_content model_name texts
  = Ok (replicate (length texts) (replicate 768 zero)).
Proof. apply embed_failure. Qed.

(** X3: [embed_documents] never raises and returns one vector per text. *)
Theorem embed_documents_length texts :
  ∃ vectors,
    embed_documents zero embed_content model_name texts = Ok vectors ∧
    length vectors = length texts.
Proof.
  assert (Hcases :
    (∃ vectors,
       Forall2 (λ text v,
                  embed_content model_name text "retrieval_document" = Ok v)
         texts vectors)
    ∨ (∃ text e, text ∈ texts ∧
         embed_content model_name text "retrieval_document" = Raise e)).
  { induction texts as [|t texts IH].
    - left. by exists [].
    - destruct (embed_content model_name t "retrieval_document") as [v|e] eqn:Ht.
      + destruct IH as [(vs & Hvs)|(text & e & Hin & Hfail)].
        * left. exists (v :: vs). by constructor.
        * right. exists text, e. split; [by right | done].
      + right. exists t, e. split; [left | done]. }
  destruct Hcases as [(vectors & Hall)|(text & e & Hin & Hfail)].
  - exists vectors. split; [by apply embed_all_ok|].
    symmetry. by eapply Forall2_length.
  - eexists. split; [by eapply embed_failure|].
    by rewrite length_replicate.
Qed.

End Embeddings.

(** ** Strings *)

Lemma length_append (a b : string) :
  String.length (a +:+ b) = String.length a + String.length b.
Proof. induction a as [|c a IH]; simpl; [done | by rewrite IH]. Qed.

Lemma lower_append (a b : string) : lower (a +:+ b) = lower a +:+ lower b.
Proof. induction a as [|c a IH]; simpl; [done | by rewrite IH]. Qed.

Lemma substring_all (b : string) : substring 0 (String.length b) b = b.
Proof. induction b as [|c b IH]; simpl; [done | by rewrite IH]. Qed.

Lemma substring_append_skip (a b : string) m :
  substring (String.length a) m (a +:+ b) = substring 0 m b.
Proof. induction a as [|c a IH]; simpl; [done | exact IH]. Qed.

(** A string built by appending a suffix ends with it. *)
Lemma endswith_append (a suffix : string) : endswith (a +:+ suffix) suffix = true.
Proof.
  unfold endswith. rewrite length_append.
  replace (String.length a + String.length suffix - String.length suffix)
    with (String.length a) by lia.
  rewrite substring_append_skip, substring_all, String.eqb_refl.
  rewrite andb_true_r. apply Nat.leb_le. lia.
Qed.

(** Whatever name the caller gives, or none, the stored name ends in
    [.pdf] up to case. *)
Lemma stored_name_pdf filename fresh_id :
  endswith (lower (stored_name filename fresh_id)) ".pdf" = true.
Proof.
  unfold stored_name. destruct (falsy filename).
  - rewrite lower_append. apply endswith_append.
  - cbv zeta. destruct (endswith (lower (default "" filename)) ".pdf") eqn:E;
      simpl; [exact E|].
    rewrite lower_append. apply endswith_append.
Qed.

(** A name that already ends in [.pdf] up to case is kept as it is. *)
Lemma stored_name_kept name fresh_id :
  endswith (lower name) ".pdf" = true →
  stored_name (Some name) fresh_id = name.
Proof.
  intros Hpdf. unfold stored_name, falsy.
  destruct (String.eqb_spec name "") as [->|_]; [discriminate Hpdf|].
  simpl. by rewrite Hpdf.
Qed.

(** ** Ingestion, continued *)

Section IngestMore.

Variable PdfReader : list Byte.byte → py (list (option string)).
Variable split_text : string → list string.
Variable writable : string → bool.

Lemma dict_get_set_eq {V} k (v : V) d : dict_get k (dict_set k v d) = Some v.
Proof.
  induction d as [|[k' v'] d IH]; simpl.
  - by rewrite String.eqb_refl.
  - destruct (String.eqb_spec k' k) as [->|Hne]; simpl.
    + by rewrite String.eqb_refl.
    + destruct (String.eqb_spec k' k); [done | exact IH].
Qed.

Lemma dict_get_set_ne {V} k k' (v : V) d :
  k ≠ k' → dict_get k' (dict_set k v d) = dict_get k' d.
Proof.
  intros Hne. induction d as [|[k0 v0] d IH]; simpl.
  - destruct (String.eqb_spec k k'); [done | done].
  - destruct (String.eqb_spec k0 k) as [->|Hne0]; simpl.
    + destruct (String.eqb_spec k k'); [done | done].
    + destruct (String.eqb_spec k0 k'); [done | exact IH].
Qed.

Lemma dict_set_fresh {V} k (v : V) d :
  dict_get k d = None → dict_set k v d = d ++ [(k, v)].
Proof.
  induction d as [|[k' v'] d IH]; simpl; [done|].
  destruct (String.eqb_spec k' k); [done|]. intros H. by rewrite IH.
Qed.

Lemma process_pdf_returns pdf_file given fresh_id now (s : DocumentProcessor) :
  ∃ ok s',
    process_pdf PdfReader split_text writable pdf_file given fresh_id now s
    = (Ok ok, s').
Proof.
  rewrite process_pdf_unfold. cbv zeta.
  destruct (writable (stored_name given fresh_id)); [|by eexists _, _].
  destruct (PdfReader pdf_file) as [pages|e]; [|by eexists _, _].
  destruct (strip_is_empty (raw_text_of pages)); by eexists _, _.
Qed.


(** X5: When the reader raises on the uploaded file, [process_pdf] returns
    false; only the PDF directory changes, by the file written under the
    stored name, and nothing changes when that write is refused. *)
Theorem process_pdf_unreadable pdf_file filename fresh_id now e
    (s : DocumentProcessor) :
  PdfReader pdf_file = Raise e →
  process_pdf PdfReader split_text writable pdf_file filename fresh_id now s
  = (Ok false,
     if writable (stored_name filename fresh_id)
     then set_pdf_dir
            (<[stored_name filename fresh_id := pdf_file]> (pdf_dir s)) s
     else s).
Proof.
  intros Hread. rewrite process_pdf_unfold. cbv zeta. rewrite Hread.
  by destruct (writable (stored_name filename fresh_id)).
Qed.

(** X6: An upload whose file can be written under the stored name and whose
    text is not blank is recorded under the fresh id, with a file name that
    ends in [.pdf] up to case and under which the uploaded bytes are stored,
    and with the number of chunks the splitter produced. *)
Theorem process_pdf_records_document pdf_file given fresh_id now pages
    (s : DocumentProcessor) :
  writable (stored_name given fresh_id) = true →
  PdfReader pdf_file = Ok pages →
  strip_is_empty (raw_text_of pages) = false →
  ∃ s' info,
    process_pdf PdfReader split_text writable pdf_file given fresh_id now s
    = (Ok true, s') ∧
    dict_get fresh_id (metadata s') = Some info ∧
    endswith (lower (filename info)) ".pdf" = true ∧
    pdf_dir s' !! filename info = Some pdf_file ∧
    uploaded_at info = now ∧
    chunk_count info = length (split_text (raw_text_of pages)).
Proof.
  intros Hwrite Hread Htext. rewrite process_pdf_unfold. cbv zeta.
  rewrite Hwrite, Hread, Htext. eexists _, _. split; [reflexivity|].
  cbn [metadata pdf_dir ingested]. rewrite dict_get_set_eq.
  split; [reflexivity|]. cbn [filename uploaded_at chunk_count].
  split; [apply stored_name_pdf|]. split; [apply lookup_insert_eq|]. done.
Qed.

(** X7: An upload whose file can be written under the stored name and whose
    text is not blank appends to the index exactly as many entries as the
    chunk count it records, each carrying the stored name as source and the
    fresh id; the entries that were there stay in front, and the saved index
    and metadata equal the ones in memory. *)
Theorem process_pdf_extends_index pdf_file filename fresh_id now pages
    (s : DocumentProcessor) :
  writable (stored_name filename fresh_id) = true →
  PdfReader pdf_file = Ok pages →
  strip_is_empty (raw_text_of pages) = false →
  ∃ s' added,
    process_pdf PdfReader split_text writable pdf_file filename fresh_id now s
    = (Ok true, s') ∧
    vector_store s' = vector_store s ++ added ∧
    chunk_count <$> dict_get fresh_id (metadata s') = Some (length added) ∧
    (∀ doc, doc ∈ added →
       doc_metadata doc
       = [("source", stored_name filename fresh_id); ("doc_id", fresh_id)]) ∧
    vector_dir s' = Saved (vector_store s') ∧
    metadata_file s' = Saved (metadata s').
Proof.
  intros Hwrite Hread Htext. rewrite process_pdf_unfold. cbv zeta.
  rewrite Hwrite, Hread, Htext. eexists _, _. split; [reflexivity|].
  cbn [metadata vector_store vector_dir metadata_file ingested].
  split; [reflexivity|]. rewrite dict_get_set_eq. simpl.
  split.
  { unfold documents. by rewrite length_zip_with, length_map, Nat.min_id. }
  split; [|done]. intros doc Hdoc. unfold documents in Hdoc.
  apply elem_of_lookup_zip_with in Hdoc as (i & t & m & -> & _ & Hm).
  simpl. revert i Hm.
  induction (split_text (raw_text_of pages)) as [|c cs IH]; intros [|i]; simpl;
    [done | done | by intros [= <-] | apply IH].
Qed.

End IngestMore.

(** ** Invariants of the processor *)

Section Invariants.

Variable PdfReader : list Byte.byte → py (list (option string)).
Variable split_text : string → list string.
Variable writable : string → bool.

Lemma aggregate_app md1 md2 :
  aggregate_chunk_count (md1 ++ md2)
  = aggregate_chunk_count md1 + aggregate_chunk_count md2.
Proof.
  unfold aggregate_chunk_count. induction md1 as [|item md1 IH]; [done|].
  simpl in *. rewrite IH. lia.
Qed.

(** X8: An upload under an id that is not in use keeps the populated-entry
    count equal to the sum of the recorded chunk counts, whether it succeeds
    or not, as long as the index is not empty. *)
Theorem process_pdf_keeps_counts pdf_file given fresh_id now
    (s : DocumentProcessor) :
  counts_agree s →
  vector_store s ≠ [] →
  dict_get fresh_id (metadata s) = None →
  counts_agree
    (process_pdf PdfReader split_text writable pdf_file given fresh_id now s).2.
Proof.
  intros Hagree Hne Hfresh. rewrite process_pdf_unfold. cbv zeta.
  destruct (writable (stored_name given fresh_id)); [|exact Hagree].
  destruct (PdfReader pdf_file) as [pages|e]; [|exact Hagree].
  destruct (strip_is_empty (raw_text_of pages)); [exact Hagree|].
  unfold counts_agree, populated_count in *.
  cbn [snd vector_store metadata ingested].
  rewrite (dict_set_fresh _ _ _ Hfresh), aggregate_app, <- Hagree.
  rewrite length_app. unfold documents.
  rewrite length_zip_with, length_map, Nat.min_id.
  unfold aggregate_chunk_count. simpl.
  destruct (vector_store s); [done|]. simpl. lia.
Qed.


(** X10: Uploads, deletions and rebuilds keep the index non-empty. *)
Theorem index_stays_not_empty (s : DocumentProcessor) :
  vector_store s ≠ [] →
  (∀ pdf_file given fresh_id now,
     vector_store
       (process_pdf PdfReader split_text writable pdf_file given fresh_id now s).2 ≠ [])
  ∧ (∀ doc_id,
       vector_store (delete_document PdfReader split_text doc_id s).2 ≠ [])
  ∧ vector_store (_rebuild_vector_store PdfReader split_text s).2 ≠ [].
Proof.
  intros Hne. split; [|split].
  - intros pdf_file given fresh_id now. rewrite process_pdf_unfold. cbv zeta.
    destruct (writable (stored_name given fresh_id)); [|exact Hne].
    destruct (PdfReader pdf_file) as [pages|e]; [|exact Hne].
    destruct (strip_is_empty (raw_text_of pages)); [exact Hne|].
    cbn [snd vector_store ingested]. intros Hnil.
    by apply app_eq_nil in Hnil as [? _].
  - intros doc_id.
    destruct (dict_get doc_id (metadata s)) as [info|] eqn:Hget.
    + rewrite (delete_unfold _ _ _ _ _ Hget).
      destruct (rebuild_store PdfReader split_text (removed doc_id info s))
        as (s' & Hrun & _ & Hvs & _).
      rewrite Hrun. simpl. by rewrite Hvs.
    + by rewrite (delete_unknown _ _ _ _ Hget).
  - destruct (rebuild_store PdfReader split_text s) as (s' & Hrun & _ & Hvs & _).
    rewrite Hrun. simpl. by rewrite Hvs.
Qed.

End Invariants.

(** ** Rebuild, restart and deletion *)

Section RebuildMore.

Variable PdfReader : list Byte.byte → py (list (option string)).
Variable split_text : string → list string.

Local Abbreviation rebuilt_chunks := (rebuilt_chunks PdfReader split_text).
Local Abbreviation rebuilt_info := (rebuilt_info PdfReader split_text).
Local Abbreviation rebuilt_entries := (rebuilt_entries PdfReader split_text).

Lemma rebuilt_entries_info fs item :
  rebuilt_entries fs (rebuilt_info fs item) = rebuilt_entries fs item.
Proof.
  unfold rebuilt_entries.
  by rewrite rebuilt_info_filename, rebuilt_info_key.
Qed.

Lemma flat_map_rebuilt fs md :
  flat_map (rebuilt_entries fs) (map (rebuilt_info fs) md)
  = flat_map (rebuilt_entries fs) md.
Proof.
  induction md as [|item md IH]; [done|]. simpl.
  by rewrite rebuilt_entries_info, IH.
Qed.

Lemma map_rebuilt_idemp fs md :
  map (rebuilt_info fs) (map (rebuilt_info fs) md) = map (rebuilt_info fs) md.
Proof. rewrite map_map. apply map_ext. intros item. apply rebuilt_info_idemp. Qed.

Lemma dict_get_del_ne {V} k k' (d : dict V) :
  k ≠ k' → dict_get k' (dict_del k d) = dict_get k' d.
Proof.
  intros Hne. induction d as [|[k0 v0] d IH]; simpl; [done|].
  destruct (String.eqb_spec k0 k) as [->|Hne0]; simpl.
  - destruct (String.eqb_spec k k'); [done | done].
  - destruct (String.eqb_spec k0 k'); [done | exact IH].
Qed.

(** X11: A rebuild never raises and touches nothing in the PDF directory.  It
    keeps every document, in order, with its id, file name, upload time and
    path; the chunk count becomes the number of chunks of the file when the
    file is present, readable and not blank, and is left as it was
    otherwise. *)
Theorem rebuild_only_recounts (s : DocumentProcessor) :
  dict_wf (metadata s) →
  ∃ s',
    _rebuild_vector_store PdfReader split_text s = (Ok tt, s') ∧
    pdf_dir s' = pdf_dir s ∧
    Forall2
      (λ old new,
         new.1 = old.1 ∧
         filename new.2 = filename old.2 ∧
         uploaded_at new.2 = uploaded_at old.2 ∧
         file_path new.2 = file_path old.2 ∧
         chunk_count new.2
         = match rebuilt_chunks (pdf_dir s) (filename old.2) with
           | Some chunks => length chunks
           | None => chunk_count old.2
           end)
      (metadata s) (metadata s').
Proof.
  intros Hwf. pose proof (rebuild_spec PdfReader split_text s Hwf) as Hspec.
  cbv zeta in Hspec. eexists. split; [exact Hspec|]. split; [done|].
  cbn [metadata]. clear. induction (metadata s) as [|item md IH]; [constructor|].
  cbn [map]. constructor; [|exact IH].
  unfold rebuilt_info.
  by destruct (rebuilt_chunks (pdf_dir s) (filename item.2)).
Qed.

(** X12: Restarting after a rebuild changes nothing: a processor constructed from
    the files a rebuild left behind holds the same metadata and the same
    index entries as the processor that did the rebuild. *)
Theorem restart_after_rebuild (s s1 : DocumentProcessor) :
  dict_wf (metadata s) →
  _rebuild_vector_store PdfReader split_text s = (Ok tt, s1) →
  ∃ s2,
    DocumentProcessor__init__ PdfReader split_text
      (pdf_dir s1) (vector_dir s1) (metadata_file s1) = (Ok tt, s2) ∧
    metadata s2 = metadata s1 ∧
    vector_store s2 = vector_store s1 ∧
    pdf_dir s2 = pdf_dir s1.
Proof.
  intros Hwf Hrun.
  rewrite (rebuild_spec PdfReader split_text s Hwf) in Hrun. cbv zeta in Hrun.
  injection Hrun as <-. cbn [pdf_dir vector_dir metadata_file metadata vector_store].
  rewrite init_unfold, ensure_unfold by done.
  destruct (startup_rebuilds _ _ _).
  - match goal with |- context [_rebuild_vector_store _ _ ?l] =>
      assert (Hwf' : dict_wf (metadata l))
    end.
    { unfold dict_wf. simpl. by rewrite keys_rebuilt. }
    rewrite (rebuild_spec PdfReader split_text _ Hwf'). cbv zeta.
    eexists. split; [reflexivity|].
    cbn [pdf_dir metadata vector_store loaded loaded_metadata].
    by rewrite map_rebuilt_idemp, flat_map_rebuilt.
  - eexists. split; [reflexivity|]. done.
Qed.

(** X13: Deleting a document leaves every other document in the metadata, under
    its file name, upload time and path. *)
Theorem delete_keeps_other_documents doc_id other info (s : DocumentProcessor) :
  dict_wf (metadata s) →
  dict_get doc_id (metadata s) = Some info →
  other ≠ doc_id →
  ∃ s',
    delete_document PdfReader split_text doc_id s = (Ok true, s') ∧
    filename <$> dict_get other (metadata s')
    = filename <$> dict_get other (metadata s) ∧
    uploaded_at <$> dict_get other (metadata s')
    = uploaded_at <$> dict_get other (metadata s) ∧
    file_path <$> dict_get other (metadata s')
    = file_path <$> dict_get other (metadata s).
Proof.
  intros Hwf Hget Hne. rewrite (delete_unfold _ _ _ _ _ Hget).
  assert (Hwf' : dict_wf (metadata (removed doc_id info s))).
  { simpl. by apply dict_del_wf. }
  rewrite (rebuild_spec PdfReader split_text _ Hwf'). cbv zeta.
  eexists. split; [reflexivity|]. cbn [metadata pdf_dir removed].
  rewrite dict_get_rebuilt, dict_get_del_ne by done.
  destruct (dict_get other (metadata s)) as [i|]; [|done]. simpl.
  unfold rebuilt_info. simpl.
  by destruct (rebuilt_chunks _ (filename i)).
Qed.

(** X14: Deleting the same document a second time fails and changes nothing. *)
Theorem delete_twice doc_id info (s : DocumentProcessor) :
  dict_wf (metadata s) →
  dict_get doc_id (metadata s) = Some info →
  ∃ s',
    delete_document PdfReader split_text doc_id s = (Ok true, s') ∧
    delete_document PdfReader split_text doc_id s' = (Ok false, s').
Proof.
  intros Hwf Hget. rewrite (delete_unfold _ _ _ _ _ Hget).
  assert (Hwf' : dict_wf (metadata (removed doc_id info s))).
  { simpl. by apply dict_del_wf. }
  rewrite (rebuild_spec PdfReader split_text _ Hwf'). cbv zeta.
  eexists. split; [reflexivity|]. apply delete_unknown. cbn [metadata removed].
  apply dict_get_None. rewrite keys_rebuilt. apply dict_get_None.
  by apply dict_get_del.
Qed.

End RebuildMore.

(** ** Search, continued *)

Section SearchMore.

Context {Score : Type}.
Variable similarity_search_with_score :
  list Document → string → Z → py (list (Document * Score)).

Local Abbreviation search := (search_documents similarity_search_with_score).

Lemma search_frame query k (s : DocumentProcessor) :
  let s' := (search query k s).2 in
  pdf_dir s' = pdf_dir s ∧
  vector_dir s' = vector_dir s ∧
  metadata_file s' = metadata_file s ∧
  metadata s' = metadata s ∧
  vector_store s' = vector_store s ∧
  (calls s' = calls s ∨
   calls s' = calls s ++ [FAISS_similarity_search_with_score query k]).
Proof.
  cbv zeta. rewrite search_unfold.
  destruct (Nat.eqb (length (metadata s)) 0); [by repeat split; try left|].
  cbv zeta.
  destruct (similarity_search_with_score (vector_store s) query k);
    simpl; repeat split; by right.
Qed.

(** X15: A search changes nothing but the log of index calls, to which it adds
    at most its own similarity search. *)
Theorem search_changes_only_the_log query k (s : DocumentProcessor) :
  let s' := (search query k s).2 in
  pdf_dir s' = pdf_dir s ∧
  vector_dir s' = vector_dir s ∧
  metadata_file s' = metadata_file s ∧
  metadata s' = metadata s ∧
  vector_store s' = vector_store s ∧
  (calls s' = calls s ∨
   calls s' = calls s ++ [FAISS_similarity_search_with_score query k]).
Proof. apply search_frame. Qed.

(** X16: When the index raises on the similarity search, the search returns the
    empty list instead of raising. *)
Theorem search_index_failure query k e (s : DocumentProcessor) :
  metadata s ≠ [] →
  similarity_search_with_score (vector_store s) query k = Raise e →
  search query k s
  = (Ok [], log_call (FAISS_similarity_search_with_score query k) s).
Proof.
  intros Hdocs Hfail. rewrite search_unfold.
  destruct (metadata s) as [|item md]; [done|]. simpl. by rewrite Hfail.
Qed.


End SearchMore.

(** ** Chat, continued *)

Section ChatMore.

Context {Score : Type}.
Variable similarity_search_with_score :
  list Document → string → Z → py (list (Document * Score)).
Variable generate_content : string → string → py GenerateContentResponse.

Local Abbreviation search := (search_documents similarity_search_with_score).
Local Abbreviation respond :=
  (generate_response similarity_search_with_score generate_content).

(** X18: [generate_response] never raises and leaves the files, the metadata and
    the index of the document processor as they were. *)
Theorem respond_leaves_documents_alone query k (c : ComplianceChatbot) :
  ∃ answer c',
    respond query k c = (Ok answer, c') ∧
    pdf_dir (document_processor c') = pdf_dir (document_processor c) ∧
    metadata (document_processor c') = metadata (document_processor c) ∧
    vector_store (document_processor c') = vector_store (document_processor c) ∧
    vector_dir (document_processor c') = vector_dir (document_processor c) ∧
    metadata_file (document_processor c')
    = metadata_file (document_processor c).
Proof.
  destruct (search_returns similarity_search_with_score query k
              (document_processor c)) as (results & dp & Hsearch).
  pose proof (search_frame similarity_search_with_score query k
                (document_processor c)) as Hframe.
  cbv zeta in Hframe. rewrite Hsearch in Hframe. cbn [snd] in Hframe.
  destruct Hframe as (H1 & H2 & H3 & H4 & H5 & _).
  destruct results as [|r0 results].
  - rewrite (respond_empty _ _ _ _ _ _ Hsearch). eexists _, _.
    split; [reflexivity|]. done.
  - assert (Hne : r0 :: results ≠ []) by done.
    rewrite (respond_nonempty _ _ _ _ _ _ _ Hsearch Hne). cbv zeta.
    destruct (response_text _ _ _); eexists _, _;
      (split; [reflexivity|]); done.
Qed.

(** X19: The transcript never grows beyond twenty entries: after any call it is
    no longer than twenty, or than it was before if that was more. *)
Theorem transcript_capped query k (c : ComplianceChatbot) :
  length (chat_history (respond query k c).2)
  ≤ Nat.max 20 (length (chat_history c)).
Proof.
  destruct (search_returns similarity_search_with_score query k
              (document_processor c)) as (results & dp & Hsearch).
  destruct results as [|r0 results].
  - rewrite (respond_empty _ _ _ _ _ _ Hsearch). simpl. lia.
  - assert (Hne : r0 :: results ≠ []) by done.
    rewrite (respond_nonempty _ _ _ _ _ _ _ Hsearch Hne). cbv zeta.
    destruct (response_text _ _ _) as [t|e]; simpl; [|lia].
    unfold capped, last_n.
    destruct (Nat.ltb_spec 20
                (length (chat_history c
                           ++ [mkMessage "user" query; mkMessage "assistant" t]))).
    + rewrite length_drop. lia.
    + lia.
Qed.

(** X20: After an answered question the transcript ends with the question and
    the answer, and the answer comes back with one source per search result,
    in order, none of them the placeholder. *)
Theorem answered_question query k results dp t (c : ComplianceChatbot) :
  search query k (document_processor c) = (Ok results, dp) →
  results ≠ [] →
  response_text generate_content (model_name c) (prompt_of results query)
  = Ok t →
  ∃ sources c' earlier,
    respond query k c = (Ok (t, sources), c') ∧
    chat_history c'
    = earlier ++ [mkMessage "user" query; mkMessage "assistant" t] ∧
    Forall2
      (λ (result : Document * Score) (src : Source),
         source src = metadata_get_or_unknown "source" result.1 ∧
         score src = result.2 ∧
         doc_id src = metadata_get_or_unknown "doc_id" result.1)
      results sources ∧
    ∀ src, src ∈ sources → doc_id src ≠ "placeholder".
Proof.
  intros Hsearch Hne Htext.
  rewrite (respond_nonempty _ _ _ _ _ _ _ Hsearch Hne). cbv zeta. rewrite Htext.
  eexists _, _, (drop (length (chat_history c) + 2 - 20) (chat_history c)).
  split; [reflexivity|]. split; [|split].
  - cbn [chat_history set_chat_history]. unfold capped, last_n.
    rewrite length_app. cbn [length].
    destruct (Nat.ltb_spec 20 (length (chat_history c) + 2)) as [Hlong|Hshort].
    + by rewrite drop_app_le by lia.
    + replace (length (chat_history c) + 2 - 20) with 0 by lia. done.
  - clear. induction results as [|[doc sc] results IH]; simpl; by constructor.
  - intros src Hsrc.
    destruct (search_filters_results similarity_search_with_score query k
                (document_processor c))
      as (results' & dp' & Hsearch' & Hfiltered).
    rewrite Hsearch in Hsearch'. injection Hsearch' as <- <-.
    apply list_elem_of_In, in_map_iff in Hsrc as ([doc sc] & <- & Hin).
    apply list_elem_of_In, Hfiltered in Hin. simpl.
    unfold metadata_get_or_unknown, not_placeholder in *.
    destruct (dict_get "doc_id" (doc_metadata doc)) as [v|]; [|done].
    intros ->. done.
Qed.

End ChatMore.

(** ** Upload page *)

Section UploadMore.

Variable PdfReader : list Byte.byte → py (list (option string)).
Variable split_text : string → list string.
Variable writable : string → bool.


(** X22: The upload loop never raises and puts the name of every uploaded file
    in exactly one of the two lists. *)
Theorem upload_documents_partition uploaded_files : ∀ successes failures s,
  ∃ succeeded failed s',
    upload_documents PdfReader split_text writable uploaded_files successes failures s
    = (Ok (successes ++ succeeded, failures ++ failed), s') ∧
    succeeded ++ failed ≡ₚ map (λ f, UploadedFile.name f.1) uploaded_files.
Proof.
  induction uploaded_files as [|[file [fresh_id now]] rest IH];
    intros successes failures s.
  - exists [], [], s. by rewrite !app_nil_r.
  - cbn [upload_documents map fst].
    destruct (validate_pdf (Some file)).
    + unfold bind.
      destruct (process_pdf_returns PdfReader split_text writable (UploadedFile.data file)
                  (Some (UploadedFile.name file)) fresh_id now s)
        as (ok & s1 & Hrun).
      rewrite Hrun. destruct ok.
      * destruct (IH (successes ++ [UploadedFile.name file]) failures s1)
          as (succ & fail & s' & Hrest & Hperm).
        exists (UploadedFile.name file :: succ), fail, s'.
        rewrite Hrest, <- app_assoc. split; [done|]. simpl. by rewrite Hperm.
      * destruct (IH successes (failures ++ [UploadedFile.name file]) s1)
          as (succ & fail & s' & Hrest & Hperm).
        exists succ, (UploadedFile.name file :: fail), s'.
        rewrite Hrest, <- app_assoc. split; [done|].
        rewrite <- Permutation_middle. by rewrite Hperm.
    + destruct (IH successes (failures ++ [UploadedFile.name file]) s)
        as (succ & fail & s' & Hrest & Hperm).
      exists succ, (UploadedFile.name file :: fail), s'.
      rewrite Hrest, <- app_assoc. split; [done|].
      rewrite <- Permutation_middle. by rewrite Hperm.
Qed.

(** X23: Files that fail validation are all reported as failures and never reach
    the processor. *)
Theorem upload_documents_all_invalid uploaded_files : ∀ successes failures s,
  Forall (λ f, validate_pdf (Some f.1) = false) uploaded_files →
  upload_documents PdfReader split_text writable uploaded_files successes failures s
  = (Ok (successes,
         failures ++ map (λ f, UploadedFile.name f.1) uploaded_files), s).
Proof.
  induction uploaded_files as [|[file [fresh_id now]] rest IH];
    intros successes failures s Hall.
  - simpl. by rewrite app_nil_r.
  - apply Forall_cons in Hall as [Hfile Hrest]. cbn [fst] in Hfile.
    cbn [upload_documents map fst]. rewrite Hfile.
    rewrite (IH _ _ _ Hrest). by rewrite <- app_assoc.
Qed.

End UploadMore.

(** ** Users database *)

Lemma database_eta db : mkDatabase (reachable db) (users db) (next_id db) = db.
Proof. by destruct db. Qed.

Lemma find_app_None {A} (f : A → bool) l l' :
  List.find f l = None → List.find f (l ++ l') = List.find f l'.
Proof.
  induction l as [|x l IH]; simpl; [done|]. destruct (f x); [done | exact IH].
Qed.

Lemma find_None_existsb {A} (f : A → bool) l :
  List.find f l = None → existsb f l = false.
Proof.
  induction l as [|x l IH]; simpl; [done|]. destruct (f x); [done | exact IH].
Qed.

Lemma filter_absent_id uid rows :
  uid ∉ map UserRow.id rows →
  List.filter (λ u, negb (Z.eqb (UserRow.id u) uid)) rows = rows.
Proof.
  induction rows as [|u rows IH]; simpl; [done|].
  intros [Hne Hrest]%not_elem_of_cons.
  destruct (Z.eqb_spec (UserRow.id u) uid); [congruence|]. simpl.
  by rewrite IH.
Qed.

Lemma admins_positive u rows :
  In u rows → UserRow.is_admin u = true → 1 ≤ admins rows.
Proof.
  intros Hin Hadmin. unfold admins.
  assert (Hfiltered : In u (List.filter UserRow.is_admin rows)).
  { by apply filter_In. }
  destruct (List.filter UserRow.is_admin rows); [done | simpl; lia].
Qed.

Lemma admins_after_delete uid u rows :
  NoDup (map UserRow.id rows) →
  List.find (λ u, Z.eqb (UserRow.id u) uid) rows = Some u →
  admins (List.filter (λ u, negb (Z.eqb (UserRow.id u) uid)) rows)
  = admins rows - (if UserRow.is_admin u then 1 else 0).
Proof.
  induction rows as [|r rows IH]; [done|]. cbn [map List.find List.filter].
  intros [Hfresh Hdistinct]%NoDup_cons.
  destruct (Z.eqb_spec (UserRow.id r) uid) as [Heq|Hne]; cbn [negb].
  - intros [= ->]. rewrite filter_absent_id by (by rewrite <- Heq).
    unfold admins. simpl. destruct (UserRow.is_admin u); simpl; lia.
  - intros Hfind. specialize (IH Hdistinct Hfind).
    assert (Hpos : UserRow.is_admin u = true → 1 ≤ admins rows).
    { apply find_some in Hfind as [Hin _]. by apply admins_positive. }
    unfold admins in *. simpl.
    destruct (UserRow.is_admin r); simpl; [|exact IH].
    rewrite IH. destruct (UserRow.is_admin u); [|lia].
    specialize (Hpos eq_refl). lia.
Qed.

Lemma map_absent_id uid b rows :
  uid ∉ map UserRow.id rows → map (with_admin uid b) rows = rows.
Proof.
  induction rows as [|u rows IH]; simpl; [done|].
  intros [Hne Hrest]%not_elem_of_cons. unfold with_admin at 1.
  destruct (Z.eqb_spec (UserRow.id u) uid); [congruence|]. by rewrite IH.
Qed.

Lemma admins_after_revoke uid u rows :
  NoDup (map UserRow.id rows) →
  List.find (λ u, Z.eqb (UserRow.id u) uid) rows = Some u →
  admins (map (with_admin uid false) rows)
  = admins rows - (if UserRow.is_admin u then 1 else 0).
Proof.
  induction rows as [|r rows IH]; [done|]. cbn [map List.find].
  intros [Hfresh Hdistinct]%NoDup_cons. unfold with_admin at 1.
  destruct (Z.eqb_spec (UserRow.id r) uid) as [Heq|Hne].
  - intros [= ->]. rewrite map_absent_id by (by rewrite <- Heq).
    unfold admins. simpl. destruct (UserRow.is_admin u); simpl; lia.
  - intros Hfind. specialize (IH Hdistinct Hfind).
    assert (Hpos : UserRow.is_admin u = true → 1 ≤ admins rows).
    { apply find_some in Hfind as [Hin _]. by apply admins_positive. }
    unfold admins in *. simpl.
    destruct (UserRow.is_admin r); simpl; [|exact IH].
    rewrite IH. destruct (UserRow.is_admin u); [|lia].
    specialize (Hpos eq_refl). lia.
Qed.

Lemma admins_after_grant uid rows :
  admins rows ≤ admins (map (with_admin uid true) rows).
Proof.
  unfold admins. induction rows as [|r rows IH]; simpl; [done|].
  unfold with_admin at 1.
  destruct (Z.eqb (UserRow.id r) uid); simpl.
  - destruct (UserRow.is_admin r); simpl; lia.
  - destruct (UserRow.is_admin r); simpl; lia.
Qed.

Lemma delete_user_unfold user_id db :
  reachable db = true →
  delete_user user_id db
  = match List.find (λ u, Z.eqb (UserRow.id u) user_id) (users db) with
    | None => (Ok (false, "User not found"), db)
    | Some user =>
        if UserRow.is_admin user && (admins (users db) <=? 1)%nat
        then (Ok (false, "Cannot delete the last admin user"), db)
        else
          (Ok (true, "User deleted successfully"),
           set_users
             (List.filter (λ u, negb (Z.eqb (UserRow.id u) user_id)) (users db))
             db)
    end.
Proof.
  intros Hconn. unfold delete_user, get_db_connection, count_admins, select_by_id.
  unfold bind at 1. unfold gets at 1. rewrite Hconn.
  unfold try_except, bind, gets, modify, ret. fold (admins (users db)).
  destruct (List.find _ (users db)) as [user|]; [|done].
  by destruct (UserRow.is_admin user && (admins (users db) <=? 1)%nat).
Qed.

Lemma update_user_unfold user_id is_admin db :
  reachable db = true →
  update_user_admin_status user_id is_admin db
  = let updated :=
      (Ok (true,
           "Admin privileges " +:+ (if is_admin then "granted" else "revoked")
           +:+ " successfully"),
       set_users (map (with_admin user_id is_admin) (users db)) db) in
    if is_admin then updated
    else
      match List.find (λ u, Z.eqb (UserRow.id u) user_id) (users db) with
      | None => (Ok (false, "User not found"), db)
      | Some user =>
          if UserRow.is_admin user && (admins (users db) <=? 1)%nat
          then (Ok (false,
                    "Cannot remove admin privileges from the last admin user"),
                db)
          else updated
      end.
Proof.
  intros Hconn.
  unfold update_user_admin_status, get_db_connection, count_admins, select_by_id.
  unfold bind at 1. unfold gets at 1. rewrite Hconn.
  unfold try_except, bind, gets, modify, ret. fold (admins (users db)).
  destruct is_admin; simpl; [done|].
  destruct (List.find _ (users db)) as [user|]; [|done].
  unfold admins. by destruct (UserRow.is_admin user && _).
Qed.

(** X24: [delete_user] never removes the last administrator: a table with an
    administrator still has one afterwards. *)
Theorem delete_user_keeps_an_admin user_id (db : Database) :
  ids_distinct db →
  1 ≤ admins (users db) →
  1 ≤ admins (users (delete_user user_id db).2).
Proof.
  intros Hids Hadmin. destruct (reachable db) eqn:Hconn.
  2:{ unfold delete_user, get_db_connection, bind, gets. by rewrite Hconn. }
  rewrite (delete_user_unfold _ _ Hconn).
  destruct (List.find _ (users db)) as [user|] eqn:Hfind; [|exact Hadmin].
  destruct (UserRow.is_admin user && (admins (users db) <=? 1)%nat) eqn:Hlast;
    [exact Hadmin|].
  cbn [snd users set_users]. rewrite (admins_after_delete _ _ _ Hids Hfind).
  destruct (UserRow.is_admin user); [|lia].
  simpl in Hlast. apply Nat.leb_gt in Hlast. lia.
Qed.

(** X25: [update_user_admin_status] never demotes the last administrator: a
    table with an administrator still has one afterwards. *)
Theorem update_status_keeps_an_admin user_id is_admin (db : Database) :
  ids_distinct db →
  1 ≤ admins (users db) →
  1 ≤ admins (users (update_user_admin_status user_id is_admin db).2).
Proof.
  intros Hids Hadmin. destruct (reachable db) eqn:Hconn.
  2:{ unfold update_user_admin_status, get_db_connection, bind, gets.
      by rewrite Hconn. }
  rewrite (update_user_unfold _ _ _ Hconn). cbv zeta.
  destruct is_admin.
  { cbn [snd users set_users]. pose proof (admins_after_grant user_id (users db)).
    lia. }
  destruct (List.find _ (users db)) as [user|] eqn:Hfind; [|exact Hadmin].
  destruct (UserRow.is_admin user && (admins (users db) <=? 1)%nat) eqn:Hlast;
    [exact Hadmin|].
  cbn [snd users set_users]. rewrite (admins_after_revoke _ _ _ Hids Hfind).
  destruct (UserRow.is_admin user); [|lia].
  simpl in Hlast. apply Nat.leb_gt in Hlast. lia.
Qed.

(** X26: Granting administrator rights to an id that is not in the table reports
    success although no row changes. *)
Theorem grant_to_unknown_user user_id (db : Database) :
  reachable db = true →
  user_id ∉ map UserRow.id (users db) →
  update_user_admin_status user_id true db
  = (Ok (true, "Admin privileges granted successfully"), db).
Proof.
  intros Hconn Habsent. rewrite (update_user_unfold _ _ _ Hconn). cbv zeta.
  rewrite (map_absent_id _ _ _ Habsent). unfold set_users.
  by rewrite database_eta.
Qed.

Section UserAuthProperties.

Variable sha256_hexdigest : string → string.

Lemma varchar_fits n v : String.length v ≤ n → varchar n v = Some v.
Proof. intros Hlen. unfold varchar. apply Nat.leb_le in Hlen. by rewrite Hlen. Qed.

Lemma id_absent_existsb uid rows :
  uid ∉ map UserRow.id rows →
  existsb (λ u, Z.eqb (UserRow.id u) uid) rows = false.
Proof.
  induction rows as [|u rows IH]; simpl; [done|].
  intros [Hne Hrest]%not_elem_of_cons.
  destruct (Z.eqb_spec (UserRow.id u) uid); [congruence | by apply IH].
Qed.

Lemma insert_user_fresh name password_hash salt is_admin now db :
  has_nul name = false →
  String.length name ≤ 50 →
  String.length password_hash ≤ 128 →
  String.length salt ≤ 36 →
  next_id db ∉ map UserRow.id (users db) →
  List.find (λ u, String.eqb (UserRow.username u) name) (users db) = None →
  insert_user name password_hash salt is_admin now db
  = (Ok tt,
     mkDatabase (reachable db)
       (users db
        ++ [UserRow.mk (next_id db) name password_hash salt is_admin now])
       (next_id db + 1)).
Proof.
  intros Hnul Hname Hhash Hsalt Hid Hfree.
  unfold insert_user, adapt, bind. rewrite Hnul. unfold ret.
  rewrite !varchar_fits by done. cbv zeta.
  by rewrite (id_absent_existsb _ _ Hid), (find_None_existsb _ _ Hfree).
Qed.

Lemma register_user_unfold username password is_admin fresh_uuid now db :
  reachable db = true →
  register_user sha256_hexdigest username password is_admin fresh_uuid now db
  = if has_nul username then (Ok (false, "Error: " +:+ nul_message), db)
    else
      match List.find (λ u, String.eqb (UserRow.username u) username) (users db)
      with
      | Some _ => (Ok (false, "Username already exists"), db)
      | None =>
          match insert_user username
                  (sha256_hexdigest (password +:+ fresh_uuid))
                  fresh_uuid is_admin now db with
          | (Ok _, db') => (Ok (true, "User registered successfully"), db')
          | (Raise e, db') => (Ok (false, "Error: " +:+ e), db')
          end
      end.
Proof.
  intros Hconn. unfold register_user, get_db_connection, select_by_username.
  unfold bind at 1. unfold gets at 1. rewrite Hconn. cbn [negb].
  unfold try_except, bind at 1. unfold bind at 1. unfold adapt at 1.
  destruct (has_nul username); [done|]. unfold ret at 1, gets at 1.
  destruct (List.find _ (users db)); [done|].
  unfold hash_password, bind at 1.
  by destruct (insert_user _ _ _ _ _ db) as [[[]|e] db'].
Qed.

Lemma authenticate_user_unfold username password db :
  reachable db = true →
  authenticate_user sha256_hexdigest username password db
  = if has_nul username then (Ok (false, None, "Error: " +:+ nul_message), db)
    else
      match List.find (λ u, String.eqb (UserRow.username u) username) (users db)
      with
      | None => (Ok (false, None, "Invalid username or password"), db)
      | Some user =>
          if String.eqb (sha256_hexdigest (password +:+ UserRow.salt user))
               (UserRow.password_hash user)
          then (Ok (true,
                    Some (UserData.mk (UserRow.id user) username
                            (UserRow.is_admin user)),
                    "Login successful"), db)
          else (Ok (false, None, "Invalid username or password"), db)
      end.
Proof.
  intros Hconn. unfold authenticate_user, get_db_connection, select_by_username.
  unfold bind at 1. unfold gets at 1. rewrite Hconn. cbn [negb].
  unfold try_except, bind at 1. unfold bind at 1. unfold adapt at 1.
  destruct (has_nul username); [done|]. unfold ret at 1, gets at 1.
  unfold ret, hash_password.
  destruct (List.find _ (users db)) as [user|]; [|done].
  by destruct (String.eqb _ _).
Qed.


(** X28: Registering a name that is taken fails and leaves the table alone;
    the message says that the name exists, or, for a name with a NUL
    character, that the driver refused it. *)
Theorem register_existing_username username password is_admin fresh_uuid now
    user (db : Database) :
  reachable db = true →
  List.find (λ u, String.eqb (UserRow.username u) username) (users db)
  = Some user →
  register_user sha256_hexdigest username password is_admin fresh_uuid now db
  = (Ok (false,
         if has_nul username then "Error: " +:+ nul_message
         else "Username already exists"), db).
Proof.
  intros Hconn Htaken. rewrite (register_user_unfold _ _ _ _ _ _ Hconn), Htaken.
  by destruct (has_nul username).
Qed.


(** X30: On an empty table [create_initial_admin] creates an administrator who
    can log in as [admin] with the password [admin]. *)
Theorem initial_admin_login fresh_uuid now (db : Database) :
  reachable db = true →
  users db = [] →
  String.length (sha256_hexdigest ("admin" +:+ fresh_uuid)) ≤ 128 →
  String.length fresh_uuid ≤ 36 →
  ∃ db',
    create_initial_admin sha256_hexdigest fresh_uuid now db = (Ok tt, db') ∧
    authenticate_user sha256_hexdigest "admin" "admin" db'
    = (Ok (true, Some (UserData.mk (next_id db) "admin" true),
           "Login successful"), db').
Proof.
  intros Hconn Hempty Hhash Hsalt.
  assert (Hfree : List.find (λ u, String.eqb (UserRow.username u) "admin")
                    (users db) = None) by (by rewrite Hempty).
  assert (Hid : next_id db ∉ map UserRow.id (users db)).
  { rewrite Hempty. apply not_elem_of_nil. }
  assert (Hname : String.length "admin" ≤ 50) by (simpl; lia).
  unfold create_initial_admin, get_db_connection.
  unfold bind at 1. unfold gets at 1. rewrite Hconn.
  unfold try_except, bind at 1. unfold gets at 1. rewrite Hempty. cbn [length Nat.eqb].
  unfold bind at 1.
  rewrite (register_user_unfold _ _ _ _ _ _ Hconn), Hfree.
  change (has_nul "admin") with false. cbv iota.
  rewrite insert_user_fresh by done. rewrite Hempty. cbn [app ret].
  eexists. split; [reflexivity|].
  rewrite authenticate_user_unfold by done.
  change (has_nul "admin") with false.
  cbn [users List.find UserRow.username].
  rewrite String.eqb_refl. cbn [UserRow.salt UserRow.password_hash].
  by rewrite String.eqb_refl.
Qed.

End UserAuthProperties.

(** ** The further properties on explicit inputs *)

Lemma embed_documents_all_ok_witness :
  embed_documents 0 Demo.embedder "models/embedding-001" ["ab"; "cde"]
  = Ok [[2]; [3]].
Proof.
  apply (embed_documents_all_ok 0 Demo.embedder "models/embedding-001"
           ["ab"; "cde"] [[2]; [3]]).
  repeat constructor.
Defined.

Lemma embed_documents_failure_witness :
  embed_documents 0 Demo.embedder "models/embedding-001" ["ab"; ""; "cde"]
  = Ok (replicate 3 (replicate 768 0)).
Proof.
  apply (embed_documents_failure 0 Demo.embedder "models/embedding-001"
           ["ab"; ""; "cde"] "" "InvalidArgument").
  - right. left.
  - reflexivity.
Defined.

Lemma process_pdf_unreadable_witness :
  process_pdf Demo.reader Demo.split Demo.writable (Demo.file "") (Some "empty.pdf")
    "d3" "2024-01-02T00:00:00" Demo.lagging
  = (Ok false,
     set_pdf_dir
       (<[stored_name (Some "empty.pdf") "d3" := Demo.file ""]>
          (pdf_dir Demo.lagging))
       Demo.lagging).
Proof.
  apply (process_pdf_unreadable Demo.reader Demo.split Demo.writable
           (Demo.file "")
           (Some "empty.pdf") "d3" "2024-01-02T00:00:00" "PdfReadError"
           Demo.lagging).
  reflexivity.
Defined.

Lemma process_pdf_records_document_witness :
  ∃ s' info,
    process_pdf Demo.reader Demo.split Demo.writable (Demo.file "hello world!!")
      (Some "report") "d3" "2024-01-02T00:00:00" Demo.lagging = (Ok true, s') ∧
    dict_get "d3" (metadata s') = Some info ∧
    endswith (lower (filename info)) ".pdf" = true ∧
    pdf_dir s' !! filename info = Some (Demo.file "hello world!!") ∧
    uploaded_at info = "2024-01-02T00:00:00" ∧
    chunk_count info = length (Demo.split (raw_text_of [Some "hello world!!"])).
Proof.
  apply (process_pdf_records_document Demo.reader Demo.split Demo.writable
           (Demo.file "hello world!!") (Some "report") "d3"
           "2024-01-02T00:00:00" [Some "hello world!!"] Demo.lagging).
  - reflexivity.
  - reflexivity.
  - reflexivity.
Defined.

Lemma process_pdf_extends_index_witness :
  ∃ s' added,
    process_pdf Demo.reader Demo.split Demo.writable (Demo.file "hello world!!")
      (Some "report") "d3" "2024-01-02T00:00:00" Demo.lagging = (Ok true, s') ∧
    vector_store s' = vector_store Demo.lagging ++ added ∧
    chunk_count <$> dict_get "d3" (metadata s') = Some (length added) ∧
    (∀ doc, doc ∈ added →
       doc_metadata doc
       = [("source", stored_name (Some "report") "d3"); ("doc_id", "d3")]) ∧
    vector_dir s' = Saved (vector_store s') ∧
    metadata_file s' = Saved (metadata s').
Proof.
  apply (process_pdf_extends_index Demo.reader Demo.split Demo.writable
           (Demo.file "hello world!!") (Some "report") "d3"
           "2024-01-02T00:00:00" [Some "hello world!!"] Demo.lagging).
  - reflexivity.
  - reflexivity.
  - reflexivity.
Defined.

Lemma process_pdf_keeps_counts_witness :
  counts_agree Demo.synced ∧
  counts_agree
    (process_pdf Demo.reader Demo.split Demo.writable (Demo.file "hello world!!")
       (Some "report") "d3" "2024-01-02T00:00:00" Demo.synced).2.
Proof.
  assert (Hagree : counts_agree Demo.synced) by reflexivity.
  split; [exact Hagree|].
  apply (process_pdf_keeps_counts Demo.reader Demo.split Demo.writable
           (Demo.file "hello world!!") (Some "report") "d3"
           "2024-01-02T00:00:00" Demo.synced Hagree).
  - discriminate.
  - reflexivity.
Defined.

Lemma index_stays_not_empty_witness :
  (∀ pdf_file given fresh_id now,
     vector_store
       (process_pdf Demo.reader Demo.split Demo.writable pdf_file given fresh_id now
          Demo.lagging).2 ≠ [])
  ∧ (∀ doc_id,
       vector_store
         (delete_document Demo.reader Demo.split doc_id Demo.lagging).2 ≠ [])
  ∧ vector_store
      (_rebuild_vector_store Demo.reader Demo.split Demo.lagging).2 ≠ [].
Proof.
  apply (index_stays_not_empty Demo.reader Demo.split Demo.writable
           Demo.lagging).
  discriminate.
Defined.

Lemma demo_lagging_wf : dict_wf (metadata Demo.lagging).
Proof. apply (bool_decide_unpack _). vm_compute. reflexivity. Defined.

Lemma rebuild_only_recounts_witness :
  ∃ s',
    _rebuild_vector_store Demo.reader Demo.split Demo.lagging = (Ok tt, s') ∧
    pdf_dir s' = pdf_dir Demo.lagging ∧
    Forall2
      (λ old new,
         new.1 = old.1 ∧
         filename new.2 = filename old.2 ∧
         uploaded_at new.2 = uploaded_at old.2 ∧
         file_path new.2 = file_path old.2 ∧
         chunk_count new.2
         = match rebuilt_chunks Demo.reader Demo.split (pdf_dir Demo.lagging)
                   (filename old.2) with
           | Some chunks => length chunks
           | None => chunk_count old.2
           end)
      (metadata Demo.lagging) (metadata s').
Proof.
  exact (rebuild_only_recounts Demo.reader Demo.split Demo.lagging
           demo_lagging_wf).
Defined.

Lemma restart_after_rebuild_witness :
  let s1 := (_rebuild_vector_store Demo.reader Demo.split Demo.lagging).2 in
  ∃ s2,
    DocumentProcessor__init__ Demo.reader Demo.split
      (pdf_dir s1) (vector_dir s1) (metadata_file s1) = (Ok tt, s2) ∧
    metadata s2 = metadata s1 ∧
    vector_store s2 = vector_store s1 ∧
    pdf_dir s2 = pdf_dir s1.
Proof.
  apply (restart_after_rebuild Demo.reader Demo.split Demo.lagging
           (_rebuild_vector_store Demo.reader Demo.split Demo.lagging).2
           demo_lagging_wf).
  reflexivity.
Defined.

Lemma delete_keeps_other_documents_witness :
  ∃ s',
    delete_document Demo.reader Demo.split "d1" Demo.lagging = (Ok true, s') ∧
    filename <$> dict_get "d2" (metadata s')
    = filename <$> dict_get "d2" (metadata Demo.lagging) ∧
    uploaded_at <$> dict_get "d2" (metadata s')
    = uploaded_at <$> dict_get "d2" (metadata Demo.lagging) ∧
    file_path <$> dict_get "d2" (metadata s')
    = file_path <$> dict_get "d2" (metadata Demo.lagging).
Proof.
  apply (delete_keeps_other_documents Demo.reader Demo.split "d1" "d2"
           (Demo.info "a.pdf" 3) Demo.lagging demo_lagging_wf).
  - reflexivity.
  - discriminate.
Defined.

Lemma delete_twice_witness :
  ∃ s',
    delete_document Demo.reader Demo.split "d1" Demo.lagging = (Ok true, s') ∧
    delete_document Demo.reader Demo.split "d1" s' = (Ok false, s').
Proof.
  apply (delete_twice Demo.reader Demo.split "d1" (Demo.info "a.pdf" 3)
           Demo.lagging demo_lagging_wf).
  reflexivity.
Defined.

Lemma search_index_failure_witness :
  search_documents Demo.search_down "retention period" 3 Demo.lagging
  = (Ok [],
     log_call (FAISS_similarity_search_with_score "retention period" 3)
       Demo.lagging).
Proof.
  apply (search_index_failure Demo.search_down "retention period" 3
           "IndexError" Demo.lagging).
  - discriminate.
  - reflexivity.
Defined.


Lemma answered_question_witness :
  ∃ sources c' earlier,
    generate_response Demo.search Demo.llm_ok "retention period" 5
      (ComplianceChatbot__init__ Demo.lagging)
    = (Ok ("See policy.pdf.", sources), c') ∧
    chat_history c'
    = earlier ++ [mkMessage "user" "retention period";
                  mkMessage "assistant" "See policy.pdf."] ∧
    Forall2
      (λ (result : Document * nat) (src : Source),
         source src = metadata_get_or_unknown "source" result.1 ∧
         score src = result.2 ∧
         doc_id src = metadata_get_or_unknown "doc_id" result.1)
      Demo.found sources ∧
    ∀ src, src ∈ sources → doc_id src ≠ "placeholder".
Proof.
  apply (answered_question Demo.search Demo.llm_ok "retention period" 5
           Demo.found
           (log_call (FAISS_similarity_search_with_score "retention period" 5)
              Demo.lagging)
           "See policy.pdf." (ComplianceChatbot__init__ Demo.lagging)).
  - reflexivity.
  - discriminate.
  - reflexivity.
Defined.


Lemma upload_documents_all_invalid_witness :
  upload_documents Demo.reader Demo.split Demo.writable
    [(Demo.notes, ("d3", "2024-01-02T00:00:00"));
     (Demo.huge, ("d4", "2024-01-02T00:00:01"))] [] [] Demo.lagging
  = (Ok ([], ["notes.txt"; "huge.pdf"]), Demo.lagging).
Proof.
  apply (upload_documents_all_invalid Demo.reader Demo.split Demo.writable
           [(Demo.notes, ("d3", "2024-01-02T00:00:00"));
            (Demo.huge, ("d4", "2024-01-02T00:00:01"))] [] [] Demo.lagging).
  repeat constructor.
Defined.

Lemma demo_staff_ids : ids_distinct Demo.staff.
Proof. apply (bool_decide_unpack _). vm_compute. reflexivity. Defined.

Lemma delete_user_keeps_an_admin_witness :
  1 ≤ admins (users (delete_user 1 Demo.staff).2).
Proof.
  apply (delete_user_keeps_an_admin 1 Demo.staff demo_staff_ids).
  vm_compute. lia.
Defined.

Lemma update_status_keeps_an_admin_witness :
  1 ≤ admins (users (update_user_admin_status 1 false Demo.staff).2).
Proof.
  apply (update_status_keeps_an_admin 1 false Demo.staff demo_staff_ids).
  vm_compute. lia.
Defined.

Lemma grant_to_unknown_user_witness :
  update_user_admin_status 7 true Demo.staff
  = (Ok (true, "Admin privileges granted successfully"), Demo.staff).
Proof.
  apply (grant_to_unknown_user 7 Demo.staff).
  - reflexivity.
  - apply (bool_decide_unpack _). vm_compute. reflexivity.
Defined.


Lemma register_existing_username_witness :
  register_user Demo.digest "alice" "other" false "salt-x" "2024-01-03"
    Demo.staff = (Ok (false, "Username already exists"), Demo.staff).
Proof.
  apply (register_existing_username Demo.digest "alice" "other" false "salt-x"
           "2024-01-03" Demo.alice Demo.staff).
  - reflexivity.
  - reflexivity.
Defined.


Lemma initial_admin_login_witness :
  ∃ db',
    create_initial_admin Demo.digest "salt-0" "2024-01-01" Demo.fresh
    = (Ok tt, db') ∧
    authenticate_user Demo.digest "admin" "admin" db'
    = (Ok (true, Some (UserData.mk 1 "admin" true), "Login successful"), db').
Proof.
  apply (initial_admin_login Demo.digest "salt-0" "2024-01-01" Demo.fresh).
  - reflexivity.
  - reflexivity.
  - vm_compute. lia.
  - vm_compute. lia.
Defined.

(** An upload under a name that leads into a directory that does not exist
    is refused, and nothing changes. *)
Example process_pdf_refused_write :
  process_pdf Demo.reader Demo.split Demo.writable (Demo.file "hello")
    (Some "nodir/x.pdf") "d3" "2024-01-02T00:00:00" Demo.lagging
  = (Ok false, Demo.lagging).
Proof. reflexivity. Qed.

(** A user name with a NUL character is refused by the driver, at
    registration and at login. *)
Example register_user_nul :
  register_user Demo.digest (String "a" (String Ascii.zero "b")) "pw" false
    "salt-n" "2024-01-03" Demo.staff
  = (Ok (false, "Error: " +:+ nul_message), Demo.staff)
  ∧ authenticate_user Demo.digest (String "a" (String Ascii.zero "b")) "pw"
      Demo.staff
    = (Ok (false, None, "Error: " +:+ nul_message), Demo.staff).
Proof. split; reflexivity. Qed.

(** A row whose id is the next value of the sequence makes the insertion
    fail, and the value stays taken. *)
Example register_user_id_in_use :
  let db := mkDatabase true (users Demo.staff) 2 in
  register_user Demo.digest "carol" "pw3" false "salt-c" "2024-01-03" db
  = (Ok (false, "Error: duplicate key value violates unique constraint"),
     mkDatabase true (users Demo.staff) 3).
Proof. reflexivity. Qed.
